(** * PyExecJS, [execjs/_external_runtime.py]: a shallow embedding

    The module drives an external JavaScript engine: it compiles a snippet
    into a runner program, hands the program to the engine (pipe, temporary
    file or interactive session) and decodes the line the runner prints.

    Python [str] values are sequences of Unicode code points and are
    modelled as [list N]; the text operations the module relies on
    ([str.replace], [str.splitlines], [str.strip], [str.split], [in],
    [re.sub] over an alternation of literals, [json.dumps] of a string) are
    written out over that representation. *)

From Stdlib Require Import ZArith NArith Lia Bool Ascii String.
From stdpp Require Import base option list gmap strings.

Local Open Scope N_scope.

(** ** Python text *)

Abbreviation pystr := (list N).

(** [u "abc"] is the Python literal ['abc'] (ASCII literals only). *)
Definition u (s : string) : pystr :=
  (fun a => N_of_ascii a) <$> list_ascii_of_string s.

Module Py.

(** [s.startswith(p)] *)
Fixpoint startswith (p s : pystr) : bool :=
  match p, s with
  | [], _ => true
  | _ :: _, [] => false
  | a :: p', b :: s' => (a =? b) && startswith p' s'
  end.

(** [p in s] for text: some suffix of [s] starts with [p]. *)
Fixpoint contains (p s : pystr) : bool :=
  startswith p s ||
  match s with
  | [] => false
  | _ :: s' => contains p s'
  end.

(** [c in s] for a single character. *)
Definition has_char (c : N) (s : pystr) : bool := existsb (N.eqb c) s.

(** The first alternative, in the order given, that matches at the head
    of [s]; empty alternatives never arise here and are skipped. *)
Fixpoint first_match (alts : list (pystr * pystr)) (s : pystr)
  : option (pystr * pystr) :=
  match alts with
  | [] => None
  | (pat, rep) :: alts' =>
      if negb (Nat.eqb (length pat) 0) && startswith pat s
      then Some (pat, rep)
      else first_match alts' s
  end.

(** One left-to-right pass replacing every non-overlapping match of one of
    the literal alternatives by its replacement; [skip] counts the
    characters of the current match still to be consumed.  The text put
    in is not scanned again.  This is [re.sub] for a pattern
    [re.escape(k1)|re.escape(k2)|...] and [str.replace] for a single
    alternative. *)
Fixpoint sub_scan (alts : list (pystr * pystr)) (skip : nat) (s : pystr)
  : pystr :=
  match s with
  | [] => []
  | c :: s' =>
      match skip with
      | S k => sub_scan alts k s'
      | O =>
          match first_match alts s with
          | Some (pat, rep) => rep ++ sub_scan alts (length pat - 1) s'
          | None => c :: sub_scan alts 0 s'
          end
      end
  end.

Definition re_sub (alts : list (pystr * pystr)) (s : pystr) : pystr :=
  sub_scan alts 0 s.

(** [s.replace(old, new)], [old] not empty. *)
Definition replace (old new s : pystr) : pystr := sub_scan [(old, new)] 0 s.

(** Line boundaries of [str.splitlines]: LF, VT, FF, CR, FS, GS, RS, NEL,
    LS and PS; CR LF counts as one boundary. *)
Definition is_linebreak (c : N) : bool :=
  (c =? 10) || (c =? 11) || (c =? 12) || (c =? 13) || (c =? 28) ||
  (c =? 29) || (c =? 30) || (c =? 133) || (c =? 8232) || (c =? 8233).

(** [s.splitlines()]: the boundaries are dropped, and a boundary at the
    very end opens no further line. *)
Fixpoint splitlines (s : pystr) : list pystr :=
  match s with
  | [] => []
  | c :: s' =>
      if is_linebreak c then
        match s' with
        | d :: s'' =>
            if (c =? 13) && (d =? 10) then [] :: splitlines s''
            else [] :: splitlines s'
        | [] => [[]]
        end
      else
        match splitlines s' with
        | [] => [[c]]
        | l :: ls => (c :: l) :: ls
        end
  end.

End Py.

(** ** [json.dumps] of a string, and [format(n, '04x')] *)

Module Json.

(** One lower-case hexadecimal digit, [d < 16]. *)
Definition hex_digit (d : N) : N :=
  if d <? 10 then 48 + d else 87 + d.

(** The hexadecimal digits of [n], most significant first, without
    leading zeros (['0'] for zero): [format(n, 'x')]. *)
Fixpoint hex_digits (fuel : nat) (n : N) : pystr :=
  match fuel with
  | O => [hex_digit (n mod 16)]
  | S f => if n <? 16 then [hex_digit n]
           else hex_digits f (n / 16) ++ [hex_digit (n mod 16)]
  end.

(** ['{0:04x}'.format(n)]: at least four digits, zero padded. *)
Definition format_04x (n : N) : pystr :=
  let ds := hex_digits (N.to_nat (N.log2 n)) n in
  replicate (4 - length ds) 48 ++ ds.

(** [ESCAPE_DCT] of the [json.encoder] module. *)
Definition escape_dct (c : N) : option pystr :=
  if c =? 92 then Some [92; 92]
  else if c =? 34 then Some [92; 34]
  else if c =? 8 then Some [92; 98]
  else if c =? 12 then Some [92; 102]
  else if c =? 10 then Some [92; 110]
  else if c =? 13 then Some [92; 114]
  else if c =? 9 then Some [92; 116]
  else None.

(** The characters [ESCAPE_ASCII] leaves alone: [' '] to ['~'] except the
    backslash and the double quote. *)
Definition plain_ascii (c : N) : bool :=
  (32 <=? c) && (c <=? 126) && negb (c =? 92) && negb (c =? 34).

(** The replacement [py_encode_basestring_ascii] computes for one
    character: a short escape, [\uXXXX], or a surrogate pair of two such
    escapes for a code point above the basic plane. *)
Definition escape_char (c : N) : pystr :=
  if plain_ascii c then [c]
  else match escape_dct c with
       | Some e => e
       | None =>
           if c <? 65536 then [92; 117] ++ format_04x c
           else
             let n := c - 65536 in
             let s1 := N.lor 55296 (N.land (N.shiftr n 10) 1023) in
             let s2 := N.lor 56320 (N.land n 1023) in
             [92; 117] ++ format_04x s1 ++ [92; 117] ++ format_04x s2
       end.

(** [json.dumps(s)] for a [str], with the default [ensure_ascii=True]. *)
Definition dumps_str (s : pystr) : pystr :=
  [34] ++ concat (escape_char <$> s) ++ [34].

(** The decimal digits of [n]: [str(n)] for a natural number. *)
Fixpoint dec_digits (fuel : nat) (n : N) : pystr :=
  match fuel with
  | O => [48 + n mod 10]
  | S f => if n <? 10 then [48 + n]
           else dec_digits f (n / 10) ++ [48 + n mod 10]
  end.

Definition int_repr (z : Z) : pystr :=
  let n := Z.abs_N z in
  (if (z <? 0)%Z then [45] else []) ++ dec_digits (N.to_nat (N.log2 n)) n.

(** [sep.join(parts)] *)
Fixpoint join (sep : pystr) (parts : list pystr) : pystr :=
  match parts with
  | [] => []
  | [p] => p
  | p :: rest => p ++ sep ++ join sep rest
  end.

End Json.

(** ** More text operations *)

Module Str.

(** [str.isspace] for one character: the set [str.strip()] removes. *)
Definition isspace (c : N) : bool :=
  ((9 <=? c) && (c <=? 13)) || ((28 <=? c) && (c <=? 32)) ||
  (c =? 133) || (c =? 160) || (c =? 5760) ||
  ((8192 <=? c) && (c <=? 8202)) || (c =? 8232) || (c =? 8233) ||
  (c =? 8239) || (c =? 8287) || (c =? 12288).

Fixpoint lstrip (s : pystr) : pystr :=
  match s with
  | [] => []
  | c :: s' => if isspace c then lstrip s' else s
  end.

(** [s.strip()] *)
Definition strip (s : pystr) : pystr := reverse (lstrip (reverse (lstrip s))).

(** [s.split(sep)] for a one-character separator. *)
Fixpoint split (sep : N) (s : pystr) : list pystr :=
  match s with
  | [] => [[]]
  | c :: s' =>
      if c =? sep then [] :: split sep s'
      else match split sep s' with
           | [] => [[c]]
           | l :: ls => (c :: l) :: ls
           end
  end.

(** The text before and after the first occurrence of [pat] in [s]. *)
Fixpoint partition (pat s : pystr) : option (pystr * pystr) :=
  if Py.startswith pat s then Some ([], drop (length pat) s)
  else match s with
       | [] => None
       | c :: s' =>
           match partition pat s' with
           | Some (b, a) => Some (c :: b, a)
           | None => None
           end
       end.

End Str.

(** ** Values, exceptions and the host *)

(** What [json.loads] can return.  A float is kept as its IEEE 754 bit
    pattern; a dict as its items in insertion order. *)
#[warnings="-register-all"]
Inductive pyvalue : Type :=
| PNone
| PBool (b : bool)
| PInt (z : Z)
| PFloat (bits : N)
| PStr (s : pystr)
| PList (l : list pyvalue)
| PDict (items : list (pystr * pyvalue)).

Inductive exn : Type :=
| ProcessExitedWithNonZeroStatus (status : Z) (stdout stderr : pystr)
| ProgramError (value : pyvalue)
| RuntimeUnavailableError
| IndexError
| KeyError
| TypeError
| ValueError
| AttributeError
| JSONDecodeError
| UnicodeError
| OSError
| FileExistsError
| RecursionError
| ExceptionPexpect.

(** The ways [json.loads] fails on a text: the text is not JSON
    ([JSONDecodeError]); it is nested beyond the recursion limit of the
    interpreter ([RecursionError]); it holds an integer of more digits
    than [int] converts, on the interpreters that have such a limit
    ([ValueError]). *)
Inductive json_failure : Type :=
| NotJson
| TooDeep
| TooLong.

Definition json_exn (f : json_failure) : exn :=
  match f with
  | NotJson => JSONDecodeError
  | TooDeep => RecursionError
  | TooLong => ValueError
  end.

Inductive outcome (A : Type) : Type :=
| Return (a : A)
| Raise (e : exn).
Arguments Return {A} a.
Arguments Raise {A} e.

(** A file as [os.stat] and [open] see it. *)
Record inode := { st_mode : N; st_data : pystr }.

(** What a process is started with: the arguments of [Popen(...)], and
    the bytes [communicate] writes to its standard input ([None] when
    the process has no pipe there). *)
Record popen_call := {
  argv : list pystr;
  stdin : option pystr;
  popen_cwd : option pystr }.

(** What a process leaves when it ends: its exit status and the bytes it
    wrote to its standard output and to its standard error. *)
Record exited := {
  exit_status : Z;
  stdout_bytes : pystr;
  stderr_bytes : pystr }.

(** What [communicate] and [wait] give back: the status and the two
    outputs as text. *)
Record completed := { returncode : Z; stdoutdata : pystr; stderrdata : pystr }.

(** One process that ran to its end: how it was called, the files it
    started with, and what it left. *)
Record popen_record := {
  call : popen_call;
  seen : gmap pystr inode;
  result : exited }.

(** The state of a [pyexpect.spawn] object with a child: what was written
    to the child, the output of the child not consumed yet, and the
    [before] attribute. *)
Record session_obj := {
  sent : list pystr;
  buffer : pystr;
  before : pystr;
  delaybeforesend : option N }.

(** A [pyexpect.spawn] object: with a child, or the object
    [pyexpect.spawn(None)] makes, which has none ([closed] is true, the
    descriptor of the child is [-1]). *)
Inductive spawn_obj : Type :=
| Live (s : session_obj)
| Childless.

(** The host: platform, environment, and the behaviour of the libraries and
    processes the module talks to.  [codec_encode] is [str.encode] with a
    named codec and [bytes_decode] is [bytes.decode()]; [pipe_encode] and
    [pipe_decode] are what a pipe opened with [universal_newlines=True]
    does to the text written to it and to the bytes read from it (the
    codec of the locale, and on reading the translation of line ends);
    [None] stands for the [UnicodeError] of the codec.  [pty_spawn] is
    the start of a child on a terminal, with the output it begins with;
    [pattern_error] is the error, if any, of compiling a pattern that is
    not plain text as a regular expression, and [pattern_search] the
    search of the compiled pattern in the output of a child: the text
    before the first match and the text after it;
    [json_loads] is [json.loads], which returns a value or fails. *)
Record Host := {
  platform_system : pystr;
  environ_get : pystr -> option pystr;
  pathsep : N;
  linesep : pystr;
  path_join : pystr -> pystr -> pystr;
  gettempdir : pystr;
  candidate_names : nat -> pystr;
  codec_encode : pystr -> pystr -> option pystr;
  bytes_decode : pystr -> option pystr;
  pipe_encode : pystr -> option pystr;
  pipe_decode : pystr -> option pystr;
  can_spawn : list pystr -> option pystr -> bool;
  run_process : popen_call -> gmap pystr inode -> exited * gmap pystr inode;
  pty_spawn : list pystr -> option pystr;
  pty_child : list pystr -> pystr;
  pattern_error : pystr -> option exn;
  pattern_search : pystr -> pystr -> option (pystr * pystr);
  json2_source : pystr;
  json_loads : pystr -> pyvalue + json_failure;
  float_repr : N -> pystr }.

(** The [ExternalRuntime] object.  [_binary_cache] is [None] while the
    attribute does not exist, [_available] while it is not assigned. *)
Record ExternalRuntime := {
  _name : pystr;
  _command : list pystr;
  _runner_source : pystr;
  _encoding : pystr;
  _tempfile : bool;
  _session : option nat;
  _prompt : pystr;
  _binary_cache : option (option (list pystr));
  _available : option bool }.

Record Machine := {
  host : Host;
  self : ExternalRuntime;
  fs : gmap pystr inode;
  spawned : list popen_record;
  sessions : list spawn_obj }.

(** ** Computations that read and write the machine and may raise *)

Definition M (A : Type) : Type := Machine -> outcome A * Machine.

Definition ret {A} (a : A) : M A := fun m => (Return a, m).
Definition raise {A} (e : exn) : M A := fun m => (Raise e, m).
Definition bind {A B} (c : M A) (k : A -> M B) : M B :=
  fun m => match c m with
           | (Return a, m') => k a m'
           | (Raise e, m') => (Raise e, m')
           end.

Notation "'let*' x ':=' c 'in' k" := (bind c (fun x => k))
  (at level 10, x name, c at level 100, k at level 200).

(** [try: body finally: cleanup]: the cleanup always runs; when it raises,
    its exception is the one that propagates. *)
Definition try_finally {A} (body : M A) (cleanup : M unit) : M A :=
  fun m => let (r, m1) := body m in
           match cleanup m1 with
           | (Return _, m2) => (r, m2)
           | (Raise e, m2) => (Raise e, m2)
           end.

Definition get_host : M Host := fun m => (Return (host m), m).
Definition get_self : M ExternalRuntime := fun m => (Return (self m), m).
Definition set_self (r : ExternalRuntime) : M unit :=
  fun m => (Return tt, {| host := host m; self := r; fs := fs m;
                          spawned := spawned m; sessions := sessions m |}).
Definition get_fs : M (gmap pystr inode) := fun m => (Return (fs m), m).
Definition set_fs (f : gmap pystr inode) : M unit :=
  fun m => (Return tt, {| host := host m; self := self m; fs := f;
                          spawned := spawned m; sessions := sessions m |}).
Definition log_spawn (c : popen_record) : M unit :=
  fun m => (Return tt, {| host := host m; self := self m; fs := fs m;
                          spawned := spawned m ++ [c];
                          sessions := sessions m |}).
Definition get_sessions : M (list spawn_obj) :=
  fun m => (Return (sessions m), m).
Definition set_sessions (l : list spawn_obj) : M unit :=
  fun m => (Return tt, {| host := host m; self := self m; fs := fs m;
                          spawned := spawned m; sessions := l |}).

(** [_is_windows()] *)
Definition _is_windows : M bool :=
  let* h := get_host in ret (bool_decide (platform_system h = u "Windows")).

(** [_decode_if_not_text(s)]: the text itself under Python 3, where the
    environment holds [str]. *)
Definition _decode_if_not_text (s : pystr) : pystr := s.

(** [stat.S_ISREG(mode) and (stat.S_IMODE(mode) & 0o111)] *)
Definition S_ISREG (mode : N) : bool := N.land mode 61440 =? 32768.
Definition S_IMODE (mode : N) : N := N.land mode 4095.
Definition regular_and_executable (mode : N) : bool :=
  S_ISREG mode && negb (N.land (S_IMODE mode) 73 =? 0).

(** The inner loop of [_find_executable], over the extensions. *)
Fixpoint find_in_dir (join : pystr -> pystr -> pystr)
    (files : gmap pystr inode) (dir prog : pystr) (pathext : list pystr)
  : option pystr :=
  match pathext with
  | [] => None
  | ext :: rest =>
      let filename := join dir (prog ++ ext) in
      match files !! filename with
      | None => find_in_dir join files dir prog rest
      | Some st =>
          if regular_and_executable (st_mode st) then Some filename
          else find_in_dir join files dir prog rest
      end
  end.

(** The outer loop, over the directories of [PATH]. *)
Fixpoint find_in_path (join : pystr -> pystr -> pystr)
    (files : gmap pystr inode) (pathlist : list pystr) (prog : pystr)
    (pathext : list pystr) : option pystr :=
  match pathlist with
  | [] => None
  | dir :: rest =>
      match find_in_dir join files dir prog pathext with
      | Some filename => Some filename
      | None => find_in_path join files rest prog pathext
      end
  end.

(** [_find_executable(prog, pathext=("",))] *)
Definition _find_executable (prog : pystr) (pathext : list pystr)
  : M (option pystr) :=
  let* h := get_host in
  let* files := get_fs in
  let pathlist :=
    Str.split (pathsep h)
      (_decode_if_not_text (default (u "") (environ_get h (u "PATH")))) in
  ret (find_in_path (path_join h) files pathlist prog pathext).

(** [_which(command)]; [command] is already a list here, as
    [ExternalRuntime.__init__] passes it. *)
Definition _which (command : list pystr) : M (option (list pystr)) :=
  match command with
  | [] => raise IndexError
  | name :: args =>
      let* h := get_host in
      let* win := _is_windows in
      let* path := (if win then
                 let pathext :=
                   _decode_if_not_text
                     (default (u "") (environ_get h (u "PATHEXT"))) in
                 _find_executable name (Str.split (pathsep h) pathext)
               else _find_executable name [u ""]) in
      match path with
      | None => ret None
      | Some [] => ret None
      | Some p => ret (Some (p :: args))
      end
  end.

(** ** [json.dumps] of a value *)

Module JsonValue.

(** [json.dumps(v)] with the default separators [', '] and [': ']. *)
Fixpoint dumps (float_repr : N -> pystr) (v : pyvalue) : pystr :=
  match v with
  | PNone => u "null"
  | PBool true => u "true"
  | PBool false => u "false"
  | PInt z => Json.int_repr z
  | PFloat bits => float_repr bits
  | PStr s => Json.dumps_str s
  | PList l =>
      u "[" ++ Json.join (u ", ") (List.map (dumps float_repr) l) ++ u "]"
  | PDict items =>
      u "{" ++
      Json.join (u ", ")
        (List.map (fun kv => Json.dumps_str (fst kv) ++ u ": " ++
                             dumps float_repr (snd kv)) items) ++
      u "}"
  end.

End JsonValue.

(** ** [ExternalRuntime] *)

Definition with_binary_cache (r : ExternalRuntime)
    (b : option (list pystr)) : ExternalRuntime :=
  {| _name := _name r; _command := _command r;
     _runner_source := _runner_source r; _encoding := _encoding r;
     _tempfile := _tempfile r; _session := _session r;
     _prompt := _prompt r; _binary_cache := Some b;
     _available := _available r |}.

Definition with_available (r : ExternalRuntime) (a : bool)
  : ExternalRuntime :=
  {| _name := _name r; _command := _command r;
     _runner_source := _runner_source r; _encoding := _encoding r;
     _tempfile := _tempfile r; _session := _session r;
     _prompt := _prompt r; _binary_cache := _binary_cache r;
     _available := Some a |}.

Definition with_session (r : ExternalRuntime) (s : nat) : ExternalRuntime :=
  {| _name := _name r; _command := _command r;
     _runner_source := _runner_source r; _encoding := _encoding r;
     _tempfile := _tempfile r; _session := Some s;
     _prompt := _prompt r; _binary_cache := _binary_cache r;
     _available := _available r |}.

(** [ExternalRuntime._binary]: [_which] runs only while the attribute
    [_binary_cache] does not exist. *)
Definition _binary : M (option (list pystr)) :=
  let* r := get_self in
  match _binary_cache r with
  | Some b => ret b
  | None =>
      let* b := _which (_command r) in
      let* r' := get_self in
      let* _ := set_self (with_binary_cache r' b) in
      ret b
  end.

(** [ExternalRuntime.__init__]; [command] is a [str] or a list. *)
Definition __init__ (name : pystr) (command : pystr + list pystr)
    (runner_source encoding : pystr) (tempfile : bool) (prompt : pystr)
  : M unit :=
  let command := match command with inl c => [c] | inr l => l end in
  let* _ := set_self
    {| _name := name; _command := command;
       _runner_source := runner_source; _encoding := encoding;
       _tempfile := tempfile; _session := None; _prompt := prompt;
       _binary_cache := None; _available := None |} in
  let* b := _binary in
  let* r := get_self in
  set_self (with_available r (bool_decide (b <> None))).

(** [ExternalRuntime.__str__] *)
Definition __str__ : M pystr :=
  let* r := get_self in
  ret (u "ExternalRuntime" ++ u "(" ++ _name r ++ u ")").

(** The property [ExternalRuntime.name] *)
Definition name : M pystr := let* r := get_self in ret (_name r).

(** [ExternalRuntime.is_available] *)
Definition is_available : M bool :=
  let* r := get_self in
  match _available r with
  | Some a => ret a
  | None => raise AttributeError
  end.

(** *** The [pyexpect] objects *)

(** The characters that have a meaning of their own in a regular
    expression. *)
Definition re_special (c : N) : bool :=
  existsb (N.eqb c) [46; 94; 36; 42; 43; 63; 123; 125; 91; 93; 92; 124; 40; 41].

(** A pattern that, compiled as a regular expression, matches its own
    text and nothing else: ASCII characters, none of them special. *)
Definition plain_pattern (p : pystr) : bool :=
  forallb (fun c => (c <? 128) && negb (re_special c)) p.

(** An assignment to an attribute of the object [h]; an object without
    a child has no state that is followed here. *)
Definition update_session (h : nat) (f : session_obj -> session_obj)
  : M unit :=
  let* l := get_sessions in
  match l !! h with
  | Some (Live s) => set_sessions (<[h := Live (f s)]> l)
  | Some Childless => ret tt
  | None => raise AttributeError
  end.

(** [pyexpect.spawn(cmd)]: for [None] an object without a child; for a
    command a new object holding the output the child starts with, or the
    error of a command that cannot be started. *)
Definition pyexpect_spawn (cmd : option (list pystr)) : M nat :=
  let* h := get_host in
  let* l := get_sessions in
  match cmd with
  | None =>
      let* _ := set_sessions (l ++ [Childless]) in
      ret (length l)
  | Some args =>
      match pty_spawn h args with
      | None => raise ExceptionPexpect
      | Some banner =>
          let* _ := set_sessions
            (l ++ [Live {| sent := []; buffer := banner; before := [];
                           delaybeforesend := Some 50 |}]) in
          ret (length l)
      end
  end.

(** [session.expect(pattern)]: the pattern is compiled as a regular
    expression, which a pattern that is not plain may fail at; a plain
    pattern is found where its text first occurs, any other pattern
    where the host's search finds it.  The pending output is searched
    before anything is read.  With a child, the output up to and
    including the match is consumed and what came before it is kept in
    [before], and the call raises when the pattern never shows up;
    without a child the reading raises unless the pattern matches the
    empty output. *)
Definition expect (h : nat) (pattern : pystr) : M unit :=
  let* hst := get_host in
  let* l := get_sessions in
  match l !! h with
  | None => raise AttributeError
  | Some o =>
      let* search :=
        (if plain_pattern pattern then ret (Str.partition pattern)
         else match pattern_error hst pattern with
              | Some e => raise e
              | None => ret (pattern_search hst pattern)
              end) in
      match o with
      | Childless =>
          match search [] with
          | Some _ => ret tt
          | None => raise ValueError
          end
      | Live s =>
          match search (buffer s) with
          | Some (b, a) =>
              set_sessions
                (<[h := Live {| sent := sent s; buffer := a; before := b;
                                delaybeforesend := delaybeforesend s |}]> l)
          | None =>
              let* _ := set_sessions
                (<[h := Live {| sent := sent s; buffer := [];
                                before := buffer s;
                                delaybeforesend := delaybeforesend s |}]> l) in
              raise ExceptionPexpect
          end
      end
  end.

(** [session.sendline(text)]: one write of [text] and the line separator;
    the child's answer joins the pending output.  Without a child the
    write fails. *)
Definition sendline (h : nat) (text : pystr) : M unit :=
  let* hst := get_host in
  let* l := get_sessions in
  match l !! h with
  | None => raise AttributeError
  | Some Childless => raise OSError
  | Some (Live s) =>
      let sent' := sent s ++ [text ++ linesep hst] in
      set_sessions
        (<[h := Live {| sent := sent'; buffer := buffer s ++ pty_child hst sent';
                        before := before s;
                        delaybeforesend := delaybeforesend s |}]> l)
  end.

(** The attribute [before]; it is [None] on an object without a child,
    which has no [decode]. *)
Definition get_before (h : nat) : M pystr :=
  let* l := get_sessions in
  match l !! h with
  | Some (Live s) => ret (before s)
  | _ => raise AttributeError
  end.

(** [ExternalRuntime.session] *)
Definition session : M nat :=
  let* cmd := _binary in
  let* s := pyexpect_spawn cmd in
  let* r := get_self in
  let* _ := set_self (with_session r s) in
  let* _ := expect s (_prompt r) in
  let* _ := update_session s (fun o =>
    {| sent := sent o; buffer := buffer o; before := before o;
       delaybeforesend := None |}) in
  ret s.

(** *** Files and processes *)

(** The loop of [tempfile.mkstemp]: the first candidate name that no file
    has yet. *)
Fixpoint mkstemp_loop (tries : nat) (i : nat) (h : Host)
    (files : gmap pystr inode) (prefix suffix : pystr) : option pystr :=
  match tries with
  | O => None
  | S n =>
      let file :=
        path_join h (gettempdir h) (prefix ++ candidate_names h i ++ suffix)
      in
      match files !! file with
      | None => Some file
      | Some _ => mkstemp_loop n (S i) h files prefix suffix
      end
  end.

Definition TMP_MAX : nat := N.to_nat 10000.

(** [tempfile.mkstemp(prefix=..., suffix=...)] followed by [os.close(fd)]:
    the file exists, empty, readable and writable by its owner. *)
Definition mkstemp (prefix suffix : pystr) : M pystr :=
  let* h := get_host in
  let* files := get_fs in
  match mkstemp_loop TMP_MAX 0 h files prefix suffix with
  | None => raise FileExistsError
  | Some file =>
      let* _ := set_fs (<[file := {| st_mode := 33152; st_data := [] |}]> files) in
      ret file
  end.

(** [with io.open(filename, "w+", encoding=encoding) as fp: fp.write(text)]:
    the file is truncated (created when absent), then holds the encoded
    text; a text the codec cannot encode raises. *)
Definition write_text (filename encoding text : pystr) : M unit :=
  let* h := get_host in
  let* files := get_fs in
  let mode := match files !! filename with
              | Some st => st_mode st
              | None => 33188
              end in
  match codec_encode h encoding text with
  | None =>
      let* _ := set_fs (<[filename := {| st_mode := mode; st_data := [] |}]> files) in
      raise UnicodeError
  | Some bytes =>
      set_fs (<[filename := {| st_mode := mode; st_data := bytes |}]> files)
  end.

(** [os.remove(filename)] *)
Definition os_remove (filename : pystr) : M unit :=
  let* files := get_fs in
  match files !! filename with
  | None => raise OSError
  | Some _ => set_fs (delete filename files)
  end.

(** [Popen(cmd, ..., cwd=cwd)]: the process starts, or the call raises. *)
Definition Popen (cmd : option (list pystr)) (cwd : option pystr)
  : M (list pystr) :=
  match cmd with
  | None => raise TypeError
  | Some args =>
      let* h := get_host in
      if can_spawn h args cwd then ret args else raise OSError
  end.

(** [p.communicate(input)] and [p.wait()] on pipes in text mode.  The
    input is encoded first: a text the codec of the pipe cannot encode
    raises before anything is written, and the process [Popen] has
    started, which the call no longer waits for, is not followed here.
    Then the process runs to its end on the bytes; it may change files.
    At last the two outputs are decoded, the standard output first, and
    bytes the codec cannot decode raise although the process has ended. *)
Definition communicate (args : list pystr) (input cwd : option pystr)
  : M completed :=
  let* h := get_host in
  let* data := match input with
               | None => ret None
               | Some text =>
                   match pipe_encode h text with
                   | Some bytes => ret (Some bytes)
                   | None => raise UnicodeError
                   end
               end in
  let* files := get_fs in
  let c := {| argv := args; stdin := data; popen_cwd := cwd |} in
  let (res, files') := run_process h c files in
  let* _ := set_fs files' in
  let* _ := log_spawn {| call := c; seen := files; result := res |} in
  match pipe_decode h (stdout_bytes res) with
  | None => raise UnicodeError
  | Some out =>
      match pipe_decode h (stderr_bytes res) with
      | None => raise UnicodeError
      | Some err =>
          ret {| returncode := exit_status res; stdoutdata := out;
                 stderrdata := err |}
      end
  end.

(** ** [execjs._misc.encode_unicode_codepoints] *)

(** Modelled from the spec: [encode_unicode_codepoints] lives in
    [execjs/_misc.py], which is not part of the sources at hand.  Every
    character outside the printable ASCII range is written as a [\uXXXX]
    escape (two of them, a surrogate pair, above the basic plane); the
    printable ASCII characters stay. *)
Definition printable_ascii (c : N) : bool := (32 <=? c) && (c <=? 126).

Definition unicode_escape (c : N) : pystr :=
  if c <? 65536 then [92; 117] ++ Json.format_04x c
  else
    let n := c - 65536 in
    [92; 117] ++ Json.format_04x (N.lor 55296 (N.land (N.shiftr n 10) 1023))
    ++ [92; 117] ++ Json.format_04x (N.lor 56320 (N.land n 1023)).

Definition encode_unicode_codepoints (s : pystr) : pystr :=
  concat ((fun c => if printable_ascii c then [c] else unicode_escape c)
            <$> s).

(** ** [ExternalRuntime.Context] *)

Module Context.

(** The context object; [_runtime] is the runtime of the machine. *)
Record t := {
  _source : pystr;
  _cwd : option pystr;
  _tempfile : bool;
  _session : option nat }.

(** [Context.is_available] *)
Definition is_available (c : t) : M bool := is_available.

(** The table [replacements] of [_compile], in insertion order, each
    placeholder with the text its function returns. *)
Definition replacements (json2 source : pystr) : list (pystr * pystr) :=
  [ (u "#{source}", source);
    (u "#{encoded_source}",
     Json.dumps_str
       (u "(function(){ " ++ encode_unicode_codepoints source ++ u " })()"));
    (u "#{json2_source}", json2) ].

(** The three placeholders, and a text in which none of them occurs. *)
Definition placeholders : list pystr :=
  [u "#{source}"; u "#{encoded_source}"; u "#{json2_source}"].

Definition placeholder_free (s : pystr) : bool :=
  forallb (fun p => negb (Py.contains p s)) placeholders.

(** The substitution of [_compile]: one [re.sub] over the alternation of
    the escaped keys of [replacements]. *)
Definition compile_text (json2 source runner_source : pystr) : pystr :=
  Py.re_sub (replacements json2 source) runner_source.

(** [Context._compile] *)
Definition _compile (c : t) (source : pystr) : M pystr :=
  let* r := get_self in
  let* h := get_host in
  ret (compile_text (json2_source h) source (_runner_source r)).

(** [Context._fail_on_non_zero_status] *)
Definition _fail_on_non_zero_status (status : Z) (stdoutdata stderrdata : pystr)
  : M unit :=
  if bool_decide (status <> 0%Z)
  then raise (ProcessExitedWithNonZeroStatus status stdoutdata stderrdata)
  else ret tt.

(** *** [Context._extract_result] *)

(** [len(v)] *)
Definition py_len (v : pyvalue) : option nat :=
  match v with
  | PStr s => Some (length s)
  | PList l => Some (length l)
  | PDict items => Some (length items)
  | _ => None
  end.

(** [v[0]] for a value of length one; a dict decoded from JSON has only
    text keys, so the key [0] is missing. *)
Definition py_item0 (v : pyvalue) : M pyvalue :=
  match v with
  | PStr (c :: _) => ret (PStr [c])
  | PList (x :: _) => ret x
  | PDict _ => raise KeyError
  | PStr [] | PList [] => raise IndexError
  | _ => raise TypeError
  end.

(** The items [status, value = v] iterates over. *)
Definition py_iter (v : pyvalue) : option (list pyvalue) :=
  match v with
  | PStr s => Some ((fun c => PStr [c]) <$> s)
  | PList l => Some l
  | PDict items => Some ((fun kv => PStr (fst kv)) <$> items)
  | _ => None
  end.

Definition unpack2 (v : pyvalue) : M (pyvalue * pyvalue) :=
  match py_iter v with
  | None => raise TypeError
  | Some [a; b] => ret (a, b)
  | Some _ => raise ValueError
  end.

(** [status == "ok"] *)
Definition is_ok (status : pyvalue) : bool :=
  match status with
  | PStr s => bool_decide (s = u "ok")
  | _ => false
  end.

Definition normalize_newlines (output : pystr) : pystr :=
  Py.replace [13] [10] (Py.replace [13; 10] [10] output).

Definition bracket_lines (output : pystr) : list pystr :=
  filter (fun line => Py.has_char 93 line = true) (Py.splitlines output).

Definition _extract_result (output : pystr) : M pyvalue :=
  let output := normalize_newlines output in
  match last (bracket_lines output) with
  | None => raise IndexError
  | Some output_last_line =>
      let* h := get_host in
      match json_loads h output_last_line with
      | inr f => raise (json_exn f)
      | inl r =>
          match py_len r with
          | None => raise TypeError
          | Some n =>
              let* r := (if Nat.eqb n 1
                         then let* x := py_item0 r in ret (PList [x; PNone])
                         else ret r) in
              let* sv := unpack2 r in
              if is_ok (fst sv) then ret (snd sv)
              else raise (ProgramError (snd sv))
          end
      end
  end.

(** *** The three ways to run a program *)

Definition end_str : pystr := u "//!!@@##".

(** [Context._exec_with_session] *)
Definition _exec_with_session (c : t) (source : pystr) : M pystr :=
  let* input := _compile c source in
  match _session c with
  | None => raise AttributeError
  | Some s =>
      let* _ := sendline s (input ++ [10] ++ end_str) in
      let* _ := expect s end_str in
      let* b := get_before s in
      let* win := _is_windows in
      if win then ret b
      else
        let* h := get_host in
        match bytes_decode h b with
        | Some text => ret text
        | None => raise UnicodeError
        end
  end.

(** [Context._exec_with_pipe], under Python 3 ([six.PY2] is false). *)
Definition _exec_with_pipe (c : t) (source : pystr) : M pystr :=
  let* cmd := _binary in
  let* res :=
    try_finally
      (let* p := Popen cmd (_cwd c) in
       let* input := _compile c source in
       let* input :=
         match p with
         | [] => raise IndexError
         | cmd0 :: _ =>
             ret (if Py.contains (u "deno") cmd0
                  then concat (Py.splitlines input) else input)
         end in
       communicate p (Some input) (_cwd c))
      (ret tt) in
  let* _ := _fail_on_non_zero_status
              (returncode res) (stdoutdata res) (stderrdata res) in
  ret (stdoutdata res).

(** The [try] block of [_exec_with_tempfile], once the file exists. *)
Definition tempfile_body (c : t) (source filename : pystr) : M pystr :=
  let* r := get_self in
  let* text := _compile c source in
  let* _ := write_text filename (_encoding r) text in
  let* b := _binary in
  let* cmd := match b with
              | None => raise TypeError
              | Some l => ret (l ++ [filename])
              end in
  let* res :=
    try_finally
      (let* p := Popen (Some cmd) (_cwd c) in
       communicate p None (_cwd c))
      (ret tt) in
  let* _ := _fail_on_non_zero_status
              (returncode res) (stdoutdata res) (stderrdata res) in
  ret (stdoutdata res).

(** [Context._exec_with_tempfile] *)
Definition _exec_with_tempfile (c : t) (source : pystr) : M pystr :=
  let* filename := mkstemp (u "execjs") (u ".js") in
  try_finally (tempfile_body c source filename) (os_remove filename).

(** [Context._exec_] *)
Definition _exec_ (c : t) (source : pystr) : M pyvalue :=
  let source := match _source c with
                | [] => source
                | _ => _source c ++ [10] ++ source
                end in
  let* output :=
    (if _tempfile c then _exec_with_tempfile c source
     else if bool_decide (_session c <> None) then _exec_with_session c source
     else _exec_with_pipe c source) in
  _extract_result output.

(** Modelled from the spec: [exec_] is inherited from
    [AbstractRuntimeContext], which is not part of the sources at hand.  An
    unavailable engine refuses before anything is spawned; otherwise the
    call is [_exec_]. *)
Definition exec_ (c : t) (source : pystr) : M pyvalue :=
  let* a := is_available c in
  if a then _exec_ c source else raise RuntimeUnavailableError.

(** The program text [_eval] builds for [source]. *)
Definition eval_code (source : pystr) : pystr :=
  let data := match Str.strip source with
              | [] => u "''"
              | _ => u "'('+" ++ Json.dumps_str source ++ u "+')'"
              end in
  u "return eval(" ++ data ++ u ")".

(** [Context._eval] *)
Definition _eval (c : t) (source : pystr) : M pyvalue :=
  exec_ c (eval_code source).

(** [Context._call] *)
Definition _call (c : t) (identifier : pystr) (args : list pyvalue)
  : M pyvalue :=
  let* h := get_host in
  let args := JsonValue.dumps (float_repr h) (PList args) in
  _eval c (identifier ++ u ".apply(this, " ++ args ++ u ")").

End Context.

(** [ExternalRuntime._compile] *)
Definition _compile (source : pystr) (cwd : option pystr) : M Context.t :=
  let* r := get_self in
  ret {| Context._source := source; Context._cwd := cwd;
         Context._tempfile := _tempfile r; Context._session := _session r |}.

(** ** What a JavaScript engine reads *)

Module Js.

(** A code point as UTF-16 code units, the characters of a JavaScript
    string. *)
Definition utf16_units (c : N) : list N :=
  if c <? 65536 then [c]
  else
    let n := c - 65536 in
    [N.lor 55296 (N.land (N.shiftr n 10) 1023); N.lor 56320 (N.land n 1023)].

Definition utf16 (s : pystr) : list N := concat (utf16_units <$> s).

Definition hex_value (c : N) : option N :=
  if (48 <=? c) && (c <=? 57) then Some (c - 48)
  else if (97 <=? c) && (c <=? 102) then Some (c - 87)
  else if (65 <=? c) && (c <=? 70) then Some (c - 55)
  else None.

Definition hex4 (a b c d : N) : option N :=
  match hex_value a, hex_value b, hex_value c, hex_value d with
  | Some x, Some y, Some z, Some w => Some (((x * 16 + y) * 16 + z) * 16 + w)
  | _, _, _, _ => None
  end.

(** The character a backslash followed by [e] stands for. *)
Definition short_escape (e : N) : option N :=
  if e =? 34 then Some 34
  else if e =? 92 then Some 92
  else if e =? 47 then Some 47
  else if e =? 98 then Some 8
  else if e =? 102 then Some 12
  else if e =? 110 then Some 10
  else if e =? 114 then Some 13
  else if e =? 116 then Some 9
  else None.

(** The value of the rest of a double-quoted string literal, up to the
    closing quote, which must end the text. *)
Fixpoint string_body (s : pystr) : option (list N) :=
  match s with
  | [] => None
  | c :: rest =>
      if c =? 34 then match rest with [] => Some [] | _ :: _ => None end
      else if c =? 92 then
        match rest with
        | [] => None
        | e :: rest1 =>
            if e =? 117 then
              match rest1 with
              | a :: b :: c' :: d :: rest2 =>
                  match hex4 a b c' d with
                  | Some v => cons v <$> string_body rest2
                  | None => None
                  end
              | _ => None
              end
            else
              match short_escape e with
              | Some v => cons v <$> string_body rest1
              | None => None
              end
        end
      else if (c =? 10) || (c =? 13) then None
      else app (utf16_units c) <$> string_body rest
  end.

(** The string a double-quoted literal denotes. *)
Definition string_literal_value (lit : pystr) : option (list N) :=
  match lit with
  | c :: body => if c =? 34 then string_body body else None
  | [] => None
  end.

End Js.

(** ** The words of the specification, for comparison *)

(** Line endings brought to one convention in a single pass: a carriage
    return followed by a line feed, and a carriage return alone, each
    become one line feed. *)
Fixpoint newlines_to_lf (s : pystr) : pystr :=
  match s with
  | [] => []
  | c :: s' =>
      if c =? 13 then
        match s' with
        | d :: s'' => if d =? 10 then 10 :: newlines_to_lf s''
                      else 10 :: newlines_to_lf s'
        | [] => [10]
        end
      else c :: newlines_to_lf s'
  end.

(** The candidates of the probe in the order they are tried: directory
    by directory, and within a directory extension by extension. *)
Definition candidates (join : pystr -> pystr -> pystr)
    (pathlist : list pystr) (prog : pystr) (pathext : list pystr)
  : list pystr :=
  dir ← pathlist; (fun ext => join dir (prog ++ ext)) <$> pathext.

(** A candidate the probe takes. *)
Definition accepted (files : gmap pystr inode) (filename : pystr) : bool :=
  match files !! filename with
  | Some st => regular_and_executable (st_mode st)
  | None => false
  end.

(** The directories and extensions [_which] searches on a machine. *)
Definition search_path (m : Machine) : list pystr :=
  Str.split (pathsep (host m))
    (default (u "") (environ_get (host m) (u "PATH"))).

Definition search_ext (m : Machine) : list pystr :=
  if bool_decide (platform_system (host m) = u "Windows")
  then Str.split (pathsep (host m))
         (default (u "") (environ_get (host m) (u "PATHEXT")))
  else [u ""].

(** ** Calls on a runtime and its contexts *)

Inductive method : Type :=
| Runtime_str
| Runtime_name
| Runtime_is_available
| Runtime_session
| Runtime_compile (source : pystr) (cwd : option pystr)
| Runtime_binary
| Context_is_available (c : Context.t)
| Context_eval (c : Context.t) (source : pystr)
| Context_exec (c : Context.t) (source : pystr)
| Context_call (c : Context.t) (identifier : pystr) (args : list pyvalue)
| Context_compile (c : Context.t) (source : pystr)
| Context_exec_with_pipe (c : Context.t) (source : pystr)
| Context_exec_with_tempfile (c : Context.t) (source : pystr)
| Context_exec_with_session (c : Context.t) (source : pystr)
| Context_extract_result (c : Context.t) (output : pystr).

Definition discard {A} (c : M A) : M unit := fun m => (Return tt, (c m).2).

(** One call; its result or exception goes to the caller and is dropped
    here. *)
Definition invoke (f : method) : M unit :=
  match f with
  | Runtime_str => discard __str__
  | Runtime_name => discard name
  | Runtime_is_available => discard is_available
  | Runtime_session => discard session
  | Runtime_compile source cwd => discard (_compile source cwd)
  | Runtime_binary => discard _binary
  | Context_is_available c => discard (Context.is_available c)
  | Context_eval c source => discard (Context._eval c source)
  | Context_exec c source => discard (Context._exec_ c source)
  | Context_call c identifier args => discard (Context._call c identifier args)
  | Context_compile c source => discard (Context._compile c source)
  | Context_exec_with_pipe c source => discard (Context._exec_with_pipe c source)
  | Context_exec_with_tempfile c source =>
      discard (Context._exec_with_tempfile c source)
  | Context_exec_with_session c source =>
      discard (Context._exec_with_session c source)
  | Context_extract_result c output => discard (Context._extract_result output)
  end.

(** The machine after a sequence of calls. *)
Definition after (calls : list method) (m : Machine) : Machine :=
  foldl (fun m f => (invoke f m).2) m calls.

(** The fields of the descriptor other than [_session]. *)
Definition configuration (r : ExternalRuntime) :=
  (_name r, _command r, _runner_source r, _encoding r, _tempfile r,
   _prompt r, _binary_cache r, _available r).

(** ** Two small hosts to run the definitions on *)

Module Demo.

(** [posixpath.join(a, b)] *)
Definition posix_join (a b : pystr) : pystr :=
  if Py.startswith [47] b then b
  else match last a with
       | None => b
       | Some c => if c =? 47 then a ++ b else a ++ [47] ++ b
       end.

(** [ntpath.join(a, b)] for a [b] without drive and leading separator. *)
Definition nt_join (a b : pystr) : pystr :=
  match last a with
  | None => b
  | Some c => if (c =? 92) || (c =? 47) || (c =? 58) then a ++ b
              else a ++ [92] ++ b
  end.

Definition is_ascii (s : pystr) : bool := forallb (fun c => c <? 128) s.

(** The line [["ok",2]] and the line [["error","boom"]]. *)
Definition ok_line : pystr := [91; 34] ++ u "ok" ++ [34] ++ u ",2]".
Definition error_line : pystr :=
  [91; 34] ++ u "error" ++ [34; 44; 34] ++ u "boom" ++ [34; 93].

Definition loads (line : pystr) : pyvalue + json_failure :=
  if bool_decide (line = ok_line) then inl (PList [PStr (u "ok"); PInt 2])
  else if bool_decide (line = error_line)
  then inl (PList [PStr (u "error"); PStr (u "boom")])
  else inr NotJson.

(** The program a process was given: its standard input, or the file its
    last argument names (the codecs of the demonstration hosts leave
    ASCII text as it is). *)
Definition program_of (c : popen_call) (files : gmap pystr inode) : pystr :=
  match stdin c with
  | Some text => text
  | None => match last (argv c) with
            | Some f => default [] (st_data <$> files !! f)
            | None => []
            end
  end.

(** An engine that prints the line [["ok",2]], and exits with status 1
    when the program mentions [exit(1)]. *)
Definition run (c : popen_call) (files : gmap pystr inode)
  : exited * gmap pystr inode :=
  ({| exit_status := if Py.contains (u "exit(1)") (program_of c files)
                     then 1%Z else 0%Z;
      stdout_bytes := ok_line ++ [10];
      stderr_bytes := [] |}, files).

(** The codec of an ASCII locale on a pipe in text mode. *)
Definition ascii_encode (text : pystr) : option pystr :=
  if is_ascii text then Some text else None.

Definition ascii_decode (bytes : pystr) : option pystr :=
  if is_ascii bytes then Some (newlines_to_lf bytes) else None.

Definition posix : Host :=
  {| platform_system := u "Linux";
     environ_get := fun k => if bool_decide (k = u "PATH")
                             then Some (u "/usr/bin:/bin") else None;
     pathsep := 58;
     linesep := [10];
     path_join := posix_join;
     gettempdir := u "/tmp";
     candidate_names := fun i => Json.int_repr (Z.of_nat i);
     codec_encode := fun enc text =>
       if bool_decide (enc = u "ascii") && is_ascii text
       then Some text else None;
     bytes_decode := fun b => if is_ascii b then Some b else None;
     pipe_encode := ascii_encode;
     pipe_decode := ascii_decode;
     can_spawn := fun args cwd => negb (bool_decide (args = []));
     run_process := run;
     pty_spawn := fun _ => Some (u "Welcome" ++ [10] ++ u "> ");
     pty_child := fun sent =>
       u "undefined" ++ [10] ++ ok_line ++ [10] ++ Context.end_str
       ++ [10] ++ u "> ";
     pattern_error := fun _ => None;
     pattern_search := fun _ _ => None;
     json2_source := u "var JSON;";
     json_loads := loads;
     float_repr := fun _ => u "0.0" |}.

Definition windows : Host :=
  {| platform_system := u "Windows";
     environ_get := fun k =>
       if bool_decide (k = u "PATH") then Some (u "C:\bin")
       else if bool_decide (k = u "PATHEXT") then Some (u ".EXE")
       else None;
     pathsep := 59;
     linesep := [13; 10];
     path_join := nt_join;
     gettempdir := u "C:\tmp";
     candidate_names := candidate_names posix;
     codec_encode := codec_encode posix;
     bytes_decode := bytes_decode posix;
     pipe_encode := ascii_encode;
     pipe_decode := ascii_decode;
     can_spawn := can_spawn posix;
     run_process := run;
     pty_spawn := pty_spawn posix;
     pty_child := pty_child posix;
     pattern_error := pattern_error posix;
     pattern_search := pattern_search posix;
     json2_source := json2_source posix;
     json_loads := loads;
     float_repr := float_repr posix |}.

(** A runtime object before [__init__] has run. *)
Definition blank : ExternalRuntime :=
  {| _name := []; _command := []; _runner_source := []; _encoding := [];
     _tempfile := false; _session := None; _prompt := [];
     _binary_cache := None; _available := None |}.

(** A machine with [/usr/bin/node], a regular file with mode [0o755]. *)
Definition linux_box : Machine :=
  {| host := posix; self := blank;
     fs := {[ u "/usr/bin/node" := {| st_mode := 33261; st_data := [] |} ]};
     spawned := []; sessions := [] |}.

(** A machine where [C:\bin\node.EXE] is a directory. *)
Definition windows_box : Machine :=
  {| host := windows; self := blank;
     fs := {[ u "C:\bin\node.EXE" := {| st_mode := 16895; st_data := [] |} ]};
     spawned := []; sessions := [] |}.

(** A runner template that prints what the snippet returns. *)
Definition runner : pystr :=
  u "print(JSON.stringify(['ok', (function(){ #{source} })()]))".

(** [linux_box] after
    [ExternalRuntime("Node", ["node"], runner, "ascii", tempfile, "> ")]. *)
Definition node_box (tempfile : bool) : Machine :=
  (__init__ (u "Node") (inr [u "node"]) runner (u "ascii") tempfile (u "> ")
     linux_box).2.

Definition pipe_context : Context.t :=
  {| Context._source := []; Context._cwd := None;
     Context._tempfile := false; Context._session := None |}.

Definition tempfile_context : Context.t :=
  {| Context._source := []; Context._cwd := None;
     Context._tempfile := true; Context._session := None |}.


End Demo.

(** ** The known engines *)

(** The constructors at the end of the module.  The runner sources come
    from [execjs/_runner_sources.py] and are arguments here; the object a
    constructor returns is the runtime of the machine after the call.
    [encoding] defaults to ['utf8'] and [prompt] to ['> ']. *)

(** [node_node()] *)
Definition node_node (Node : pystr) : M unit :=
  __init__ (u "Node.js (V8)") (inr [u "node"]) Node (u "UTF-8") false (u "> ").

(** [node_nodejs()] *)
Definition node_nodejs (Node : pystr) : M unit :=
  __init__ (u "Node.js (V8)") (inr [u "nodejs"]) Node (u "UTF-8") false
    (u "> ").

(** [node()] *)
Definition node (Node : pystr) : M unit :=
  let* _ := node_node Node in
  let* a := is_available in
  if a then ret tt else node_nodejs Node.

(** [deno()] *)
Definition deno (Deno : pystr) : M unit :=
  __init__ (u "Deno") (inr [u "deno"]) Deno (u "UTF-8") false (u "> ").

(** [jsc()] *)
Definition jsc (JavaScriptCore : pystr) : M unit :=
  __init__ (u "JavaScriptCore")
    (inr [u "/System/Library/Frameworks/JavaScriptCore.framework/Versions/A/Resources/jsc"])
    JavaScriptCore (u "utf8") true (u "> ").

(** [spidermonkey()] *)
Definition spidermonkey (SpiderMonkey : pystr) : M unit :=
  __init__ (u "SpiderMonkey") (inr [u "js"]) SpiderMonkey (u "utf8") true
    (u "> ").

(** [jscript()] *)
Definition jscript (JScript : pystr) : M unit :=
  __init__ (u "JScript") (inr [u "cscript"; u "//E:jscript"; u "//Nologo"])
    JScript (u "ascii") true (u "> ").

(** [phantomjs()] *)
Definition phantomjs (PhantomJS : pystr) : M unit :=
  __init__ (u "PhantomJS") (inr [u "phantomjs"]) PhantomJS (u "utf8") true
    (u "> ").

(** [slimerjs()] *)
Definition slimerjs (SlimerJS : pystr) : M unit :=
  __init__ (u "SlimerJS") (inr [u "slimerjs"]) SlimerJS (u "utf8") true
    (u "> ").

(** [nashorn()] *)
Definition nashorn (Nashorn : pystr) : M unit :=
  __init__ (u "Nashorn") (inr [u "jjs"]) Nashorn (u "utf8") true (u "> ").

(** [llrt()] *)
Definition llrt (Llrt : pystr) : M unit :=
  __init__ (u "Llrt") (inr [u "llrt"]) Llrt (u "UTF-8") true (u "> ").

(** ** Further notions for the properties of the rest of the module *)

(** What [_which] answers for a command on a machine. *)
Definition probe (m : Machine) (command : list pystr)
  : option (list pystr) :=
  match command with
  | [] => None
  | name :: args =>
      match List.find (accepted (fs m))
              (candidates (path_join (host m)) (search_path m) name
                 (search_ext m)) with
      | Some (c :: p) => Some ((c :: p) :: args)
      | _ => None
      end
  end.

(** The sessions are as they were. *)
Definition same_sessions : relation Machine :=
  fun m m' => sessions m' = sessions m.

(** The files and the log of processes are as they were. *)
Definition same_files : relation Machine :=
  fun m m' => fs m' = fs m /\ spawned m' = spawned m.

(** The engine writes, creates and deletes no file. *)
Definition files_kept (h : Host) : Prop :=
  forall c files, (run_process h c files).2 = files.

(** On the host [h]: the host stays, and apart from the file [f] the
    files are as they were. *)
Definition same_files_but (h : Host) (f : pystr) : relation Machine :=
  fun m m' => host m = h ->
              host m' = h /\ delete f (fs m') = delete f (fs m).

(** The context [c] without its header. *)
Definition without_header (c : Context.t) : Context.t :=
  {| Context._source := []; Context._cwd := Context._cwd c;
     Context._tempfile := Context._tempfile c;
     Context._session := Context._session c |}.

(** The context [c] without its session. *)
Definition without_session (c : Context.t) : Context.t :=
  {| Context._source := Context._source c; Context._cwd := Context._cwd c;
     Context._tempfile := Context._tempfile c; Context._session := None |}.

(** A machine that differs from [m] in the sessions and in the session
    of the runtime. *)
Definition with_spawned (o : spawn_obj) (m : Machine) : Machine :=
  {| host := host m; self := with_session (self m) (length (sessions m));
     fs := fs m; spawned := spawned m; sessions := sessions m ++ [o] |}.

(** A machine that differs from [m] in its files only. *)
Definition with_files (files : gmap pystr inode) (m : Machine) : Machine :=
  {| host := host m; self := self m; fs := files; spawned := spawned m;
     sessions := sessions m |}.

Module Cases.

(** A machine without any file, so that no engine is found. *)
Definition empty_box : Machine :=
  {| host := Demo.posix; self := Demo.blank; fs := ∅;
     spawned := []; sessions := [] |}.

(** [empty_box] after
    [ExternalRuntime("Node", ["node"], runner, "ascii", tempfile, "> ")]. *)
Definition unavailable_box (tempfile : bool) : Machine :=
  (__init__ (u "Node") (inr [u "node"]) Demo.runner (u "ascii") tempfile
     (u "> ") empty_box).2.

(** A machine where only [/bin/nodejs] exists. *)
Definition nodejs_box : Machine :=
  {| host := Demo.posix; self := Demo.blank;
     fs := {[ u "/bin/nodejs" := {| st_mode := 33261; st_data := [] |} ]};
     spawned := []; sessions := [] |}.

(** A host like [Demo.posix] without [PATH]. *)
Definition no_path : Host :=
  {| platform_system := platform_system Demo.posix;
     environ_get := fun _ => None;
     pathsep := pathsep Demo.posix;
     linesep := linesep Demo.posix;
     path_join := path_join Demo.posix;
     gettempdir := gettempdir Demo.posix;
     candidate_names := candidate_names Demo.posix;
     codec_encode := codec_encode Demo.posix;
     bytes_decode := bytes_decode Demo.posix;
     pipe_encode := pipe_encode Demo.posix;
     pipe_decode := pipe_decode Demo.posix;
     can_spawn := can_spawn Demo.posix;
     run_process := run_process Demo.posix;
     pty_spawn := pty_spawn Demo.posix;
     pty_child := pty_child Demo.posix;
     pattern_error := pattern_error Demo.posix;
     pattern_search := pattern_search Demo.posix;
     json2_source := json2_source Demo.posix;
     json_loads := json_loads Demo.posix;
     float_repr := float_repr Demo.posix |}.

(** A machine without [PATH] whose working directory holds [node]. *)
Definition no_path_box : Machine :=
  {| host := no_path; self := Demo.blank;
     fs := {[ u "node" := {| st_mode := 33261; st_data := [] |} ]};
     spawned := []; sessions := [] |}.

(** A host like [Demo.posix] whose interactive engine never prints the
    prompt, and one that cannot start the interactive engine. *)
Definition silent : Host :=
  {| platform_system := platform_system Demo.posix;
     environ_get := environ_get Demo.posix;
     pathsep := pathsep Demo.posix;
     linesep := linesep Demo.posix;
     path_join := path_join Demo.posix;
     gettempdir := gettempdir Demo.posix;
     candidate_names := candidate_names Demo.posix;
     codec_encode := codec_encode Demo.posix;
     bytes_decode := bytes_decode Demo.posix;
     pipe_encode := pipe_encode Demo.posix;
     pipe_decode := pipe_decode Demo.posix;
     can_spawn := can_spawn Demo.posix;
     run_process := run_process Demo.posix;
     pty_spawn := fun _ => Some (u "Welcome");
     pty_child := pty_child Demo.posix;
     pattern_error := pattern_error Demo.posix;
     pattern_search := pattern_search Demo.posix;
     json2_source := json2_source Demo.posix;
     json_loads := json_loads Demo.posix;
     float_repr := float_repr Demo.posix |}.

(** A decoder that also knows the line [[]] and a line with an object of
    two keys. *)
Definition object_line : pystr :=
  u "{" ++ [34] ++ u "ok" ++ [34] ++ u ": [1], " ++ [34] ++ u "x" ++ [34]
  ++ u ": 2}".

Definition loads (line : pystr) : pyvalue + json_failure :=
  if bool_decide (line = u "[]") then inl (PList [])
  else if bool_decide (line = object_line)
  then inl (PDict [(u "ok", PList [PInt 1]); (u "x", PInt 2)])
  else Demo.loads line.

Definition decoding : Host :=
  {| platform_system := platform_system Demo.posix;
     environ_get := environ_get Demo.posix;
     pathsep := pathsep Demo.posix;
     linesep := linesep Demo.posix;
     path_join := path_join Demo.posix;
     gettempdir := gettempdir Demo.posix;
     candidate_names := candidate_names Demo.posix;
     codec_encode := codec_encode Demo.posix;
     bytes_decode := bytes_decode Demo.posix;
     pipe_encode := pipe_encode Demo.posix;
     pipe_decode := pipe_decode Demo.posix;
     can_spawn := can_spawn Demo.posix;
     run_process := run_process Demo.posix;
     pty_spawn := pty_spawn Demo.posix;
     pty_child := pty_child Demo.posix;
     pattern_error := pattern_error Demo.posix;
     pattern_search := pattern_search Demo.posix;
     json2_source := json2_source Demo.posix;
     json_loads := loads;
     float_repr := float_repr Demo.posix |}.

Definition decoding_box : Machine :=
  {| host := decoding; self := Demo.blank; fs := ∅;
     spawned := []; sessions := [] |}.




(** [Demo.node_box false] on the silent host. *)
Definition silent_box : Machine :=
  {| host := silent; self := self (Demo.node_box false);
     fs := fs (Demo.node_box false); spawned := []; sessions := [] |}.

(** A Windows host on which [PATHEXT] is not set. *)
Definition bare_windows : Host :=
  {| platform_system := platform_system Demo.windows;
     environ_get := fun k => if bool_decide (k = u "PATH")
                             then Some (u "C:\bin") else None;
     pathsep := pathsep Demo.windows;
     linesep := linesep Demo.windows;
     path_join := path_join Demo.windows;
     gettempdir := gettempdir Demo.windows;
     candidate_names := candidate_names Demo.windows;
     codec_encode := codec_encode Demo.windows;
     bytes_decode := bytes_decode Demo.windows;
     pipe_encode := pipe_encode Demo.windows;
     pipe_decode := pipe_decode Demo.windows;
     can_spawn := can_spawn Demo.windows;
     run_process := run_process Demo.windows;
     pty_spawn := pty_spawn Demo.windows;
     pty_child := pty_child Demo.windows;
     pattern_error := pattern_error Demo.windows;
     pattern_search := pattern_search Demo.windows;
     json2_source := json2_source Demo.windows;
     json_loads := json_loads Demo.windows;
     float_repr := float_repr Demo.windows |}.

(** A machine of that kind where [C:\bin\node.exe] is a regular file. *)
Definition bare_windows_box : Machine :=
  {| host := bare_windows; self := Demo.blank;
     fs := {[ u "C:\bin\node.exe" := {| st_mode := 33279; st_data := [] |} ]};
     spawned := []; sessions := [] |}.




(** A host like [Demo.posix] whose engine prints the result and, on its
    standard error, a byte the codec of the pipe cannot decode. *)
Definition garble (c : popen_call) (files : gmap pystr inode)
  : exited * gmap pystr inode :=
  ({| exit_status := if Py.contains (u "exit(1)") (Demo.program_of c files)
                     then 1%Z else 0%Z;
      stdout_bytes := Demo.ok_line ++ [10];
      stderr_bytes := [255] |}, files).

Definition garbling : Host :=
  {| platform_system := platform_system Demo.posix;
     environ_get := environ_get Demo.posix;
     pathsep := pathsep Demo.posix;
     linesep := linesep Demo.posix;
     path_join := path_join Demo.posix;
     gettempdir := gettempdir Demo.posix;
     candidate_names := candidate_names Demo.posix;
     codec_encode := codec_encode Demo.posix;
     bytes_decode := bytes_decode Demo.posix;
     pipe_encode := pipe_encode Demo.posix;
     pipe_decode := pipe_decode Demo.posix;
     can_spawn := can_spawn Demo.posix;
     run_process := garble;
     pty_spawn := pty_spawn Demo.posix;
     pty_child := pty_child Demo.posix;
     pattern_error := pattern_error Demo.posix;
     pattern_search := pattern_search Demo.posix;
     json2_source := json2_source Demo.posix;
     json_loads := json_loads Demo.posix;
     float_repr := float_repr Demo.posix |}.

(** [Demo.node_box false] on that host. *)
Definition garbling_box : Machine :=
  {| host := garbling; self := self (Demo.node_box false);
     fs := fs (Demo.node_box false); spawned := []; sessions := [] |}.

(** A machine with [/usr/bin/deno], and the runtime
    [ExternalRuntime("Deno", ["deno"], runner, "ascii", False, "> ")] on
    it. *)
Definition deno_files : Machine :=
  {| host := Demo.posix; self := Demo.blank;
     fs := {[ u "/usr/bin/deno" := {| st_mode := 33261; st_data := [] |} ]};
     spawned := []; sessions := [] |}.

Definition deno_box : Machine :=
  (__init__ (u "Deno") (inr [u "deno"]) Demo.runner (u "ascii") false
     (u "> ") deno_files).2.

End Cases.

(** ** Notions the properties are stated with *)

(** When the alternatives exclude one another at every position, the
    first match is the only match, whatever the order. *)
Definition exclusive (alts : list (pystr * pystr)) : Prop :=
  forall s a b, a ∈ alts -> b ∈ alts ->
    Py.startswith a.1 s = true -> Py.startswith b.1 s = true -> a = b.

(** No alternative matches across the end of [x]. *)
Definition no_straddle (alts : list (pystr * pystr)) (pre rest : pystr)
  : Prop :=
  forall y x q r, pre = y ++ x -> x <> [] -> (q, r) ∈ alts -> q <> [] ->
    Py.startswith q (x ++ rest) = true -> (length q <= length x)%nat.

(** [keeps R c]: running [c] takes a machine to one related to it by [R]. *)
Definition keeps {A} (R : relation Machine) (c : M A) : Prop :=
  forall m, R m (c m).2.

(** [raises_only E c]: an exception that leaves [c] satisfies [E]. *)
Definition raises_only {A} (E : exn -> Prop) (c : M A) : Prop :=
  forall m e, (c m).1 = Raise e -> E e.

(** No exception but the exit-status one. *)
Definition other (e : exn) : Prop :=
  forall status out err, e <> ProcessExitedWithNonZeroStatus status out err.

(** The log of processes is as it was. *)
Definition same_log : relation Machine :=
  fun m m' => spawned m' = spawned m.

(** Everything but the runtime object is as it was. *)
Definition same_world : relation Machine :=
  fun m m' => host m' = host m /\ fs m' = fs m /\
              spawned m' = spawned m /\ sessions m' = sessions m.

(** What [communicate] makes of what a process left, when both outputs
    can be decoded. *)
Definition decoded (h : Host) (res : exited) : option completed :=
  match pipe_decode h (stdout_bytes res) with
  | None => None
  | Some out =>
      match pipe_decode h (stderr_bytes res) with
      | None => None
      | Some err => Some {| returncode := exit_status res; stdoutdata := out;
                            stderrdata := err |}
      end
  end.

(** How a run ends once its process has ended: with the decoding error,
    with the exit-status error, or with the standard output. *)
Definition exit_status_outcome (h : Host) (res : exited) : outcome pystr :=
  match decoded h res with
  | None => Raise UnicodeError
  | Some r =>
      if bool_decide (returncode r <> 0%Z)
      then Raise (ProcessExitedWithNonZeroStatus
                    (returncode r) (stdoutdata r) (stderrdata r))
      else Return (stdoutdata r)
  end.

(** The machine once a process, called as [c] on the files [files], has
    ended and left [res] and the files [files']. *)
Definition ran (c : popen_call) (files : gmap pystr inode) (res : exited)
    (files' : gmap pystr inode) (m : Machine) : Machine :=
  {| host := host m; self := self m; fs := files';
     spawned := spawned m ++ [{| call := c; seen := files; result := res |}];
     sessions := sessions m |}.



(** The machine right after [mkstemp] made the file [f]. *)
Definition with_new_file (f : pystr) (m : Machine) : Machine :=
  {| host := host m; self := self m;
     fs := <[f := {| st_mode := 33152; st_data := [] |}]> (fs m);
     spawned := spawned m; sessions := sessions m |}.

(** Once [_binary_cache] exists, the configuration is as it was. *)
Definition same_configuration : relation Machine :=
  fun m m' => is_Some (_binary_cache (self m)) ->
              configuration (self m') = configuration (self m).

(** * Properties *)

(** ** Text *)

Lemma startswith_spec (p s : pystr) :
  Py.startswith p s = true <-> exists r, s = p ++ r.
Proof.
  revert s. induction p as [|a p IH]; intros s; simpl.
  - split; eauto.
  - destruct s as [|b s].
    + split; [discriminate | intros [r Hr]; discriminate].
    + rewrite andb_true_iff, N.eqb_eq, IH. split.
      * intros [-> [r ->]]. eauto.
      * intros [r Hr]. injection Hr as -> ->. eauto.
Qed.

Lemma startswith_app (p r : pystr) : Py.startswith p (p ++ r) = true.
Proof. apply startswith_spec. eauto. Qed.

Lemma startswith_length (p s : pystr) :
  Py.startswith p s = true -> (length p <= length s)%nat.
Proof.
  intros [r ->]%startswith_spec. rewrite length_app. lia.
Qed.

(** A match that fits in [x] does not look at what follows [x]. *)
Lemma startswith_app_short (p x y : pystr) :
  (length p <= length x)%nat ->
  Py.startswith p (x ++ y) = Py.startswith p x.
Proof.
  revert x. induction p as [|a p IH]; intros x Hlen; simpl; [done|].
  destruct x as [|b x]; simpl in *; [lia|].
  rewrite IH by lia. done.
Qed.

(** A match longer than [x] reaches the first character of [y]. *)
Lemma startswith_straddle (p x y : pystr) (c : N) :
  Py.startswith p (x ++ c :: y) = true ->
  (length x < length p)%nat ->
  p !! length x = Some c.
Proof.
  revert x. induction p as [|a p IH]; intros x Hs Hlen; simpl in *; [lia|].
  destruct x as [|b x]; simpl in *.
  - apply andb_true_iff in Hs as [->%N.eqb_eq _]. done.
  - apply andb_true_iff in Hs as [_ Hs]. apply IH; [done | lia].
Qed.

Lemma first_match_Some alts s pat rep :
  Py.first_match alts s = Some (pat, rep) ->
  (pat, rep) ∈ alts /\ pat <> [] /\ Py.startswith pat s = true.
Proof.
  induction alts as [|[p r] alts IH]; simpl; [discriminate|].
  destruct (negb (length p =? 0)%nat && Py.startswith p s) eqn:E.
  - intros [= -> ->]. apply andb_true_iff in E as [E1 E2].
    split; [left|]. split; [|done]. intros ->. discriminate.
  - intros H. destruct (IH H) as (? & ? & ?). split; [by right | done].
Qed.

Lemma first_match_None alts s :
  Py.first_match alts s = None <->
  forall pat rep, (pat, rep) ∈ alts -> pat <> [] -> Py.startswith pat s = false.
Proof.
  induction alts as [|[p r] alts IH]; simpl.
  - split; [|done]. intros _ pat rep H. inversion H.
  - destruct (negb (length p =? 0)%nat && Py.startswith p s) eqn:E.
    + split; [discriminate|]. intros H.
      apply andb_true_iff in E as [E1 E2].
      rewrite (H p r) in E2; [discriminate | left |].
      intros ->. discriminate.
    + rewrite IH. split.
      * intros H pat rep Hin Hne.
        apply elem_of_cons in Hin as [[= -> ->]|Hin]; [|by eapply H].
        apply andb_false_iff in E as [E|E]; [|done].
        destruct p; [done | discriminate].
      * intros H pat rep Hin. apply (H pat rep). by right.
Qed.

Lemma first_match_exclusive alts s pat rep :
  exclusive alts -> (pat, rep) ∈ alts -> pat <> [] ->
  Py.startswith pat s = true ->
  Py.first_match alts s = Some (pat, rep).
Proof.
  intros Hex Hin Hne Hs.
  destruct (Py.first_match alts s) as [[p r]|] eqn:E.
  - apply first_match_Some in E as (Hin' & _ & Hs').
    f_equal. exact (Hex s _ _ Hin' Hin Hs' Hs).
  - rewrite first_match_None in E. rewrite (E _ _ Hin Hne) in Hs. discriminate.
Qed.

Lemma first_match_perm alts alts' s :
  exclusive alts -> alts ≡ₚ alts' ->
  Py.first_match alts' s = Py.first_match alts s.
Proof.
  intros Hex Hp.
  destruct (Py.first_match alts s) as [[p r]|] eqn:E.
  - apply first_match_Some in E as (Hin & Hne & Hs).
    apply first_match_exclusive; [|by rewrite <- Hp|done..].
    intros s' a b Ha Hb. rewrite <- Hp in Ha, Hb. by apply Hex.
  - rewrite first_match_None in E |- *.
    intros pat rep Hin. apply (E pat rep). by rewrite Hp.
Qed.

Lemma sub_scan_perm alts alts' k s :
  exclusive alts -> alts ≡ₚ alts' ->
  Py.sub_scan alts' k s = Py.sub_scan alts k s.
Proof.
  intros Hex Hp. revert k. induction s as [|c s IH]; intros k; [done|].
  simpl Py.sub_scan. destruct k; [|apply IH].
  rewrite (first_match_perm alts alts' (c :: s) Hex Hp).
  destruct (Py.first_match alts (c :: s)) as [[p r]|]; by rewrite IH.
Qed.

Lemma sub_scan_cons alts (c : N) (s : pystr) :
  Py.sub_scan alts 0 (c :: s)
  = match Py.first_match alts (c :: s) with
    | Some (pat, rep) => rep ++ Py.sub_scan alts (length pat - 1) s
    | None => c :: Py.sub_scan alts 0 s
    end.
Proof. reflexivity. Qed.

Lemma sub_scan_skip alts (x y : pystr) :
  Py.sub_scan alts (length x) (x ++ y) = Py.sub_scan alts 0 y.
Proof. induction x as [|c x IH]; [done | exact IH]. Qed.

Lemma first_match_app_short alts (x rest : pystr) :
  (forall q r, (q, r) ∈ alts -> q <> [] ->
     Py.startswith q (x ++ rest) = true -> (length q <= length x)%nat) ->
  Py.first_match alts (x ++ rest) = Py.first_match alts x.
Proof.
  induction alts as [|[q r] alts IH]; intros H; simpl; [done|].
  assert (Hq : negb (length q =? 0)%nat && Py.startswith q (x ++ rest)
               = negb (length q =? 0)%nat && Py.startswith q x).
  { destruct q as [|a q]; [done|]. simpl negb. cbv iota. rewrite !andb_true_l.
    destruct (Py.startswith (a :: q) (x ++ rest)) eqn:E.
    - symmetry. rewrite <- (startswith_app_short (a :: q) x rest); [done|].
      apply (H (a :: q) r); [left | done | done].
    - destruct (Py.startswith (a :: q) x) eqn:E'; [|done].
      apply startswith_spec in E' as [t ->].
      rewrite <- app_assoc, startswith_app in E. discriminate. }
  rewrite Hq, IH; [done|]. intros q' r' Hin. apply (H q' r'). by right.
Qed.

Lemma sub_scan_app alts (pre rest : pystr) (k : nat) :
  (k <= length pre)%nat -> no_straddle alts pre rest ->
  Py.sub_scan alts k (pre ++ rest)
  = Py.sub_scan alts k pre ++ Py.sub_scan alts 0 rest.
Proof.
  revert k. induction pre as [|c pre IH]; intros k Hk Hns.
  - simpl in Hk. replace k with 0%nat by lia. done.
  - assert (Hns' : no_straddle alts pre rest).
    { intros y x q r -> Hx. apply (Hns (c :: y) x q r); done. }
    change ((c :: pre) ++ rest) with (c :: (pre ++ rest)).
    simpl Py.sub_scan. destruct k as [|k].
    + change (c :: (pre ++ rest)) with ((c :: pre) ++ rest).
      rewrite first_match_app_short.
      2:{ intros q r Hin Hne. by apply (Hns [] (c :: pre) q r). }
      destruct (Py.first_match alts (c :: pre)) as [[q r]|] eqn:E.
      * apply first_match_Some in E as (_ & Hne & Hs).
        apply startswith_length in Hs. simpl in Hs.
        rewrite IH; [by rewrite app_assoc | lia | done].
      * rewrite IH; [done | lia | done].
    + apply IH; [simpl in Hk; lia | done].
Qed.

(** Where no alternative occurs, the substitution copies the text. *)
Lemma sub_scan_no_match alts (s : pystr) :
  (forall q r, (q, r) ∈ alts -> q <> [] -> Py.contains q s = false) ->
  Py.sub_scan alts 0 s = s.
Proof.
  induction s as [|c s IH]; intros H; [done|]. simpl Py.sub_scan.
  assert (E : Py.first_match alts (c :: s) = None).
  { apply first_match_None. intros q r Hin Hne.
    specialize (H q r Hin Hne). simpl in H.
    by apply orb_false_iff in H as [? _]. }
  rewrite E, IH; [done|]. intros q r Hin Hne.
  specialize (H q r Hin Hne). simpl in H.
  by apply orb_false_iff in H as [_ ?].
Qed.

(** ** The template compiler *)

Lemma replacements_patterns json2 source q r :
  (q, r) ∈ Context.replacements json2 source -> q ∈ Context.placeholders.
Proof.
  unfold Context.replacements, Context.placeholders.
  rewrite !elem_of_cons, elem_of_nil.
  intros [[= -> _]|[[= -> _]|[[= -> _]|[]]]]; auto.
Qed.

Lemma placeholder_shape q :
  q ∈ Context.placeholders ->
  q <> [] /\ head q = Some 35 /\ Py.has_char 35 (tail q) = false.
Proof.
  unfold Context.placeholders. rewrite !elem_of_cons, elem_of_nil.
  intros [->|[->|[->|[]]]]; done.
Qed.

Lemma replacements_exclusive json2 source :
  exclusive (Context.replacements json2 source).
Proof.
  intros s a b Ha Hb.
  unfold Context.replacements in Ha, Hb.
  rewrite !elem_of_cons, elem_of_nil in Ha, Hb.
  destruct s as [|c0 [|c1 [|c2 s]]];
    destruct Ha as [->|[->|[->|[]]]]; destruct Hb as [->|[->|[->|[]]]];
    try done; cbn; intros H1 H2;
    repeat match goal with
           | H : _ && _ = true |- _ => apply andb_true_iff in H as [? ?]
           | H : (_ =? _) = true |- _ => apply N.eqb_eq in H
           end; subst; discriminate.
Qed.

Lemma has_char_lookup (c : N) (s : pystr) (i : nat) :
  s !! i = Some c -> Py.has_char c s = true.
Proof.
  revert i. induction s as [|d s IH]; intros [|i]; simpl; try done.
  - intros [= ->]. by rewrite N.eqb_refl.
  - intros H. rewrite (IH _ H). apply orb_true_r.
Qed.

Lemma replacements_no_straddle json2 source pre p post :
  p ∈ Context.placeholders ->
  no_straddle (Context.replacements json2 source) pre (p ++ post).
Proof.
  intros Hp y x q r _ Hx Hin Hq Hs.
  apply replacements_patterns, placeholder_shape in Hin as (_ & _ & Hq35).
  apply placeholder_shape in Hp as (Hpne & Hp35 & _).
  destruct p as [|c p]; [done|]. injection Hp35 as ->.
  destruct (decide (length q <= length x)%nat) as [|Hlt]; [done|].
  apply startswith_straddle in Hs; [|lia].
  destruct x as [|d x]; [done|]. destruct q as [|e q]; [done|].
  simpl in Hs, Hq35. apply has_char_lookup in Hs. congruence.
Qed.

Lemma compile_text_split json2 source pre p v post :
  (p, v) ∈ Context.replacements json2 source ->
  Context.compile_text json2 source (pre ++ p ++ post)
  = Context.compile_text json2 source pre ++ v
    ++ Context.compile_text json2 source post.
Proof.
  intros Hin. unfold Context.compile_text, Py.re_sub.
  pose proof (replacements_patterns _ _ _ _ Hin) as Hp.
  rewrite sub_scan_app; [|simpl; lia|by apply replacements_no_straddle].
  f_equal.
  destruct (placeholder_shape p Hp) as (Hne & _ & _).
  destruct p as [|c p]; [done|].
  change ((c :: p) ++ post) with (c :: (p ++ post)).
  rewrite sub_scan_cons.
  change (c :: (p ++ post)) with ((c :: p) ++ post).
  rewrite (first_match_exclusive _ _ (c :: p) v);
    [|apply replacements_exclusive|done|done|apply startswith_app].
  change (length (c :: p) - 1)%nat with (length p - 0)%nat.
  rewrite Nat.sub_0_r, sub_scan_skip. done.
Qed.

Lemma compile_text_placeholder_free json2 source t :
  Context.placeholder_free t = true ->
  Context.compile_text json2 source t = t.
Proof.
  intros Hfree. apply sub_scan_no_match. intros q r Hin _.
  apply replacements_patterns in Hin.
  unfold Context.placeholder_free in Hfree.
  rewrite forallb_forall in Hfree.
  apply negb_true_iff, Hfree, list_elem_of_In, Hin.
Qed.

(** C3, as the code has it.  The single pass of [re.sub] replaces every
    occurrence of [#{source}], [#{encoded_source}] and [#{json2_source}]
    that the runner template holds, each by its text; no two of the
    placeholders match at one position, so the order of the alternatives
    (longest first or any other) does not matter; a text without
    placeholders is copied unchanged.  The text put in is not scanned
    again. *)
Theorem compile_replaces_template_placeholders (json2 source : pystr) :
  let C := Context.compile_text json2 source in
  (forall pre p v post, (p, v) ∈ Context.replacements json2 source ->
     C (pre ++ p ++ post) = C pre ++ v ++ C post) /\
  (forall t, Context.placeholder_free t = true -> C t = t) /\
  (forall alts t, alts ≡ₚ Context.replacements json2 source ->
     Py.re_sub alts t = C t) /\
  (forall c m, json2 = json2_source (host m) ->
     Context._compile c source m = (Return (C (_runner_source (self m))), m)).
Proof.
  cbv zeta. split; [|split; [|split]].
  - intros pre p v post. apply compile_text_split.
  - apply compile_text_placeholder_free.
  - intros alts t Hp. unfold Context.compile_text, Py.re_sub.
    apply sub_scan_perm; [apply replacements_exclusive | done].
  - intros c m ->. reflexivity.
Qed.

(** C3 as stated fails: with the runner template [#{source}] and the
    snippet [#{json2_source}], the output is the text [#{json2_source}], a
    recognized placeholder. *)
Lemma compile_output_holds_placeholder :
  Context.compile_text (u "JSON2") (u "#{json2_source}") (u "#{source}")
    = u "#{json2_source}" /\
  Context.placeholder_free
    (Context.compile_text (u "JSON2") (u "#{json2_source}") (u "#{source}"))
    = false.
Proof. split; vm_compute; reflexivity. Qed.

(** ** [json.dumps] of a string *)

Lemma hex_digits_small (f : nat) (n : N) :
  n < 16 -> Json.hex_digits f n = [Json.hex_digit n].
Proof.
  intros Hn. destruct f; simpl.
  - by rewrite N.mod_small.
  - by apply N.ltb_lt in Hn as ->.
Qed.

Lemma hex_digits_step (f : nat) (n : N) :
  16 <= n ->
  Json.hex_digits (S f) n
  = Json.hex_digits f (n / 16) ++ [Json.hex_digit (n mod 16)].
Proof.
  intros Hn. simpl. by apply N.ltb_ge in Hn as ->.
Qed.

Lemma log2_fuel (n : N) (k : nat) :
  2 ^ N.of_nat k <= n -> (k <= N.to_nat (N.log2 n))%nat.
Proof.
  intros Hn. apply N.log2_le_mono in Hn. rewrite N.log2_pow2 in Hn; lia.
Qed.

(** Below [0x10000], [format_04x] gives the four digits of [n]. *)
Lemma format_04x_small (n : N) :
  n < 65536 ->
  Json.format_04x n
  = [Json.hex_digit (n / 16 / 16 / 16); Json.hex_digit (n / 16 / 16 mod 16);
     Json.hex_digit (n / 16 mod 16); Json.hex_digit (n mod 16)].
Proof.
  intros Hn. unfold Json.format_04x.
  pose proof (log2_fuel n 4) as Hf4.
  pose proof (log2_fuel n 8) as Hf8.
  pose proof (log2_fuel n 12) as Hf12.
  change (2 ^ N.of_nat 4) with 16 in Hf4.
  change (2 ^ N.of_nat 8) with 256 in Hf8.
  change (2 ^ N.of_nat 12) with 4096 in Hf12.
  generalize dependent (N.to_nat (N.log2 n)). intros f Hf4 Hf8 Hf12.
  pose proof (N.Div0.mul_div_le n 16) as L1.
  pose proof (N.Div0.mul_div_le (n / 16) 16) as L2.
  pose proof (N.Div0.mul_div_le (n / 16 / 16) 16) as L3.
  assert (H3 : n / 16 / 16 / 16 < 16).
  { apply N.Div0.div_lt_upper_bound, N.Div0.div_lt_upper_bound,
      N.Div0.div_lt_upper_bound. lia. }
  destruct (decide (n < 16)) as [Hs|Hs].
  { rewrite hex_digits_small by done.
    rewrite (N.div_small n 16), (N.mod_small n 16) by done. done. }
  destruct f as [|f]; [lia|].
  rewrite hex_digits_step by lia.
  destruct (decide (n / 16 < 16)) as [Hs1|Hs1].
  { rewrite hex_digits_small by done.
    rewrite (N.div_small (n / 16) 16), (N.mod_small (n / 16) 16) by done.
    done. }
  destruct f as [|f]; [lia|].
  rewrite hex_digits_step by lia.
  destruct (decide (n / 16 / 16 < 16)) as [Hs2|Hs2].
  { rewrite hex_digits_small by done.
    rewrite (N.div_small (n / 16 / 16) 16),
      (N.mod_small (n / 16 / 16) 16) by done.
    done. }
  destruct f as [|f]; [lia|].
  rewrite hex_digits_step by lia.
  rewrite hex_digits_small by lia.
  rewrite <- !app_assoc. done.
Qed.

Lemma hex_digit_value (d : N) :
  d < 16 ->
  Js.hex_value (Json.hex_digit d) = Some d /\
  printable_ascii (Json.hex_digit d) = true.
Proof.
  intros Hd.
  assert (Hc : d ∈ [0; 1; 2; 3; 4; 5; 6; 7; 8; 9; 10; 11; 12; 13; 14; 15]).
  { rewrite !elem_of_cons. lia. }
  rewrite !elem_of_cons, elem_of_nil in Hc.
  repeat (destruct Hc as [->|Hc]; [done|]). done.
Qed.

(** The four digits read back as [n], and are printable. *)
Lemma format_04x_hex4 (n : N) :
  n < 65536 ->
  exists a b c d, Json.format_04x n = [a; b; c; d] /\
    Js.hex4 a b c d = Some n /\
    Forall (fun x => printable_ascii x = true) [a; b; c; d].
Proof.
  intros Hn. rewrite format_04x_small by done.
  pose proof (N.Div0.div_lt_upper_bound n 16 4096) as H1.
  pose proof (N.Div0.div_lt_upper_bound (n / 16) 16 256) as H2.
  pose proof (N.Div0.div_lt_upper_bound (n / 16 / 16) 16 16) as H3.
  pose proof (N.mod_lt n 16) as M0.
  pose proof (N.mod_lt (n / 16) 16) as M1.
  pose proof (N.mod_lt (n / 16 / 16) 16) as M2.
  destruct (hex_digit_value (n / 16 / 16 / 16)) as [E3 P3]; [lia|].
  destruct (hex_digit_value (n / 16 / 16 mod 16)) as [E2 P2]; [lia|].
  destruct (hex_digit_value (n / 16 mod 16)) as [E1 P1]; [lia|].
  destruct (hex_digit_value (n mod 16)) as [E0 P0]; [lia|].
  eexists _, _, _, _. split; [done|]. split.
  - unfold Js.hex4. rewrite E3, E2, E1, E0. f_equal.
    pose proof (N.div_mod' n 16).
    pose proof (N.div_mod' (n / 16) 16).
    pose proof (N.div_mod' (n / 16 / 16) 16).
    lia.
  - repeat constructor; done.
Qed.

Lemma surrogate_small (base x : N) :
  base < 65536 -> N.lor base (N.land x 1023) < 65536.
Proof.
  intros Hb. change 1023 with (N.ones 10). rewrite N.land_ones.
  assert (Hm : x mod 2 ^ 10 < 65536).
  { pose proof (N.mod_upper_bound x (2 ^ 10)). lia. }
  generalize dependent (x mod 2 ^ 10). intros y Hy.
  destruct (decide (N.lor base y = 0)) as [->|Hne]; [lia|].
  change 65536 with (2 ^ 16). apply N.log2_lt_pow2; [lia|].
  rewrite N.log2_lor.
  destruct (decide (base = 0)) as [->|Hb0];
    destruct (decide (y = 0)) as [->|Hy0]; simpl N.log2.
  - simpl. lia.
  - apply N.max_lub_lt; [lia|]. apply N.log2_lt_pow2; lia.
  - apply N.max_lub_lt; [|lia]. apply N.log2_lt_pow2; lia.
  - apply N.max_lub_lt; apply N.log2_lt_pow2; lia.
Qed.

Lemma unicode_escape_body (n : N) (rest : pystr) :
  n < 65536 ->
  Js.string_body ([92; 117] ++ Json.format_04x n ++ rest)
  = cons n <$> Js.string_body rest.
Proof.
  intros Hn. destruct (format_04x_hex4 n Hn) as (a & b & c & d & -> & E & _).
  simpl. by rewrite E.
Qed.

Lemma unicode_escape_printable (n : N) :
  n < 65536 ->
  Forall (fun x => printable_ascii x = true) ([92; 117] ++ Json.format_04x n).
Proof.
  intros Hn. destruct (format_04x_hex4 n Hn) as (a & b & c & d & -> & _ & P).
  apply Forall_app. split; [repeat constructor | exact P].
Qed.

#[local] Arguments N.eqb : simpl never.
#[local] Arguments N.ltb : simpl never.
#[local] Arguments N.leb : simpl never.

Lemma plain_ascii_spec (c : N) :
  Json.plain_ascii c = true <-> 32 <= c <= 126 /\ c <> 92 /\ c <> 34.
Proof.
  unfold Json.plain_ascii.
  rewrite !andb_true_iff, !negb_true_iff, !N.leb_le, !N.eqb_neq. tauto.
Qed.

(** Reading back what [escape_char] wrote gives the UTF-16 code units of
    the character. *)
Lemma escape_char_body (c : N) (rest : pystr) :
  Js.string_body (Json.escape_char c ++ rest)
  = app (Js.utf16_units c) <$> Js.string_body rest.
Proof.
  unfold Json.escape_char, Js.utf16_units.
  destruct (Json.plain_ascii c) eqn:Hplain.
  { apply plain_ascii_spec in Hplain as (Hr & H92 & H34).
    assert (Hlt : (c <? 65536) = true) by (apply N.ltb_lt; lia).
    assert (H10 : (c =? 10) = false) by (apply N.eqb_neq; lia).
    assert (H13 : (c =? 13) = false) by (apply N.eqb_neq; lia).
    apply N.eqb_neq in H92, H34.
    simpl. rewrite H92, H34, H10, H13. simpl.
    unfold Js.utf16_units. by rewrite Hlt. }
  unfold Json.escape_dct.
  repeat match goal with
         | |- context [if ?x =? ?k then _ else _] =>
             destruct (N.eqb_spec x k); [subst; reflexivity|]
         end.
  destruct (c <? 65536) eqn:Hlt.
  - apply N.ltb_lt in Hlt. rewrite <- app_assoc.
    by rewrite unicode_escape_body.
  - rewrite <- !app_assoc.
    rewrite unicode_escape_body by (by apply surrogate_small).
    rewrite unicode_escape_body by (by apply surrogate_small).
    by destruct (Js.string_body rest).
Qed.

Lemma escape_char_printable (c : N) :
  Forall (fun x => printable_ascii x = true) (Json.escape_char c).
Proof.
  unfold Json.escape_char.
  destruct (Json.plain_ascii c) eqn:Hplain.
  { constructor; [|constructor].
    apply plain_ascii_spec in Hplain as (Hr & _).
    unfold printable_ascii. rewrite andb_true_iff, !N.leb_le. lia. }
  unfold Json.escape_dct.
  repeat match goal with
         | |- context [if ?x =? ?k then _ else _] =>
             destruct (N.eqb_spec x k); [repeat constructor|]
         end.
  destruct (c <? 65536) eqn:Hlt.
  - apply N.ltb_lt in Hlt. by apply unicode_escape_printable.
  - rewrite app_assoc. apply Forall_app.
    split; apply unicode_escape_printable; by apply surrogate_small.
Qed.

Lemma dumps_str_body (s rest : pystr) :
  Js.string_body (concat (Json.escape_char <$> s) ++ rest)
  = app (Js.utf16 s) <$> Js.string_body rest.
Proof.
  induction s as [|c s IH].
  - simpl. by destruct (Js.string_body rest).
  - change (concat (Json.escape_char <$> c :: s))
      with (Json.escape_char c ++ concat (Json.escape_char <$> s)).
    change (Js.utf16 (c :: s)) with (Js.utf16_units c ++ Js.utf16 s).
    rewrite <- app_assoc, escape_char_body, IH.
    destruct (Js.string_body rest); simpl; [|done].
    by rewrite app_assoc.
Qed.

(** [json.dumps(s)] is a double-quoted literal for the text [s]. *)
Lemma dumps_str_value (s : pystr) :
  Js.string_literal_value (Json.dumps_str s) = Some (Js.utf16 s).
Proof.
  unfold Json.dumps_str, Js.string_literal_value.
  change ([34] ++ ?x) with (34 :: x). change (34 =? 34) with true. cbv iota.
  rewrite dumps_str_body. simpl. by rewrite app_nil_r.
Qed.

(** [json.dumps(s)] holds printable ASCII characters only. *)
Lemma dumps_str_printable (s : pystr) :
  Forall (fun x => printable_ascii x = true) (Json.dumps_str s).
Proof.
  unfold Json.dumps_str. constructor; [done|].
  apply Forall_app. split; [|by repeat constructor].
  induction s as [|c s IH]; [constructor|].
  change (concat (Json.escape_char <$> c :: s))
    with (Json.escape_char c ++ concat (Json.escape_char <$> s)).
  apply Forall_app. split; [apply escape_char_printable | exact IH].
Qed.

Lemma utf16_small (s : pystr) :
  Forall (fun x => x < 65536) s -> Js.utf16 s = s.
Proof.
  induction 1 as [|c s Hc _ IH]; [done|].
  change (Js.utf16 (c :: s)) with (Js.utf16_units c ++ Js.utf16 s).
  rewrite IH. unfold Js.utf16_units.
  by apply N.ltb_lt in Hc as ->.
Qed.

Lemma printable_small (s : pystr) :
  Forall (fun x => printable_ascii x = true) s -> Forall (fun x => x < 65536) s.
Proof.
  intros H. eapply Forall_impl; [exact H|]. simpl.
  intros x [_ Hx]%andb_true_iff. apply N.leb_le in Hx. lia.
Qed.

(** ** The encoded source *)

Lemma unicode_escape_printable_all (c : N) :
  Forall (fun x => printable_ascii x = true) (unicode_escape c).
Proof.
  unfold unicode_escape. destruct (c <? 65536) eqn:Hlt.
  - apply N.ltb_lt in Hlt. by apply unicode_escape_printable.
  - rewrite app_assoc. apply Forall_app.
    split; apply unicode_escape_printable; by apply surrogate_small.
Qed.

Lemma encode_unicode_codepoints_cons (c : N) (s : pystr) :
  encode_unicode_codepoints (c :: s)
  = (if printable_ascii c then [c] else unicode_escape c)
    ++ encode_unicode_codepoints s.
Proof. reflexivity. Qed.

Lemma encode_unicode_codepoints_app (a b : pystr) :
  encode_unicode_codepoints (a ++ b)
  = encode_unicode_codepoints a ++ encode_unicode_codepoints b.
Proof.
  unfold encode_unicode_codepoints. by rewrite fmap_app, concat_app.
Qed.

Lemma encode_unicode_codepoints_printable (s : pystr) :
  Forall (fun x => printable_ascii x = true) (encode_unicode_codepoints s).
Proof.
  induction s as [|c s IH]; [constructor|].
  rewrite encode_unicode_codepoints_cons. apply Forall_app. split; [|done].
  destruct (printable_ascii c) eqn:E; [by repeat constructor|].
  apply unicode_escape_printable_all.
Qed.

(** C7.  The text put in for [#{encoded_source}] is [json.dumps] of the
    snippet, escaped by [encode_unicode_codepoints] and wrapped as
    [(function(){ ... })()]: a double-quoted literal of printable ASCII
    characters only, which denotes that wrapped program; in the program
    every character of the snippet outside the printable ASCII range
    stands as a [\uXXXX] escape whose digits are its code. *)
Theorem encoded_source_is_ascii_literal (json2 source : pystr) :
  let program :=
    u "(function(){ " ++ encode_unicode_codepoints source ++ u " })()" in
  let lit := Json.dumps_str program in
  (forall pre post,
     Context.compile_text json2 source (pre ++ u "#{encoded_source}" ++ post)
     = Context.compile_text json2 source pre ++ lit
       ++ Context.compile_text json2 source post) /\
  Forall (fun x => printable_ascii x = true) lit /\
  head lit = Some 34 /\ last lit = Some 34 /\
  Js.string_literal_value lit = Some program /\
  (forall a c b,
     encode_unicode_codepoints (a ++ c :: b)
     = encode_unicode_codepoints a
       ++ (if printable_ascii c then [c] else unicode_escape c)
       ++ encode_unicode_codepoints b) /\
  (forall c, c < 65536 ->
     exists h3 h2 h1 h0, unicode_escape c = [92; 117; h3; h2; h1; h0] /\
       Js.hex4 h3 h2 h1 h0 = Some c).
Proof.
  cbv zeta. repeat split.
  - intros pre post. apply compile_text_split.
    unfold Context.replacements. rewrite !elem_of_cons. auto.
  - apply dumps_str_printable.
  - unfold Json.dumps_str. by rewrite app_assoc, last_snoc.
  - rewrite dumps_str_value. f_equal. apply utf16_small, printable_small.
    apply Forall_app. split; [by repeat constructor|].
    apply Forall_app. split; [|by repeat constructor].
    apply encode_unicode_codepoints_printable.
  - intros a c b.
    by rewrite encode_unicode_codepoints_app, encode_unicode_codepoints_cons.
  - intros c Hc. unfold unicode_escape. apply N.ltb_lt in Hc as Hb.
    rewrite Hb. destruct (format_04x_hex4 c Hc) as (a & b & x & d & -> & E & _).
    eauto 10.
Qed.

(** ** The program [_eval] builds *)

Lemma lstrip_nil (s : pystr) :
  Str.lstrip s = [] <-> forallb Str.isspace s = true.
Proof.
  induction s as [|c s IH]; simpl; [done|].
  destruct (Str.isspace c); simpl; [exact IH | done].
Qed.

Lemma lstrip_keeps_nonspace (s : pystr) :
  forallb Str.isspace s = false -> forallb Str.isspace (Str.lstrip s) = false.
Proof.
  induction s as [|c s IH]; simpl; [done|].
  destruct (Str.isspace c) eqn:E; simpl; [exact IH|].
  intros _. by rewrite E.
Qed.

Lemma forallb_reverse (f : N -> bool) (s : pystr) :
  forallb f (reverse s) = forallb f s.
Proof.
  induction s as [|c s IH]; [done|].
  rewrite reverse_cons, forallb_app, IH. simpl.
  rewrite andb_true_r. apply andb_comm.
Qed.

(** [not source.strip()] holds exactly for the texts of whitespace only. *)
Lemma strip_nil (s : pystr) :
  Str.strip s = [] <-> forallb Str.isspace s = true.
Proof.
  unfold Str.strip. split.
  - intros H. destruct (forallb Str.isspace s) eqn:E; [done|].
    apply lstrip_keeps_nonspace in E.
    rewrite <- forallb_reverse in E. apply lstrip_keeps_nonspace in E.
    rewrite <- forallb_reverse, H in E. discriminate.
  - intros H. apply lstrip_nil in H. by rewrite H.
Qed.

(** C10.  For a source that is empty or whitespace only, [_eval] runs the
    program [return eval('')]; for any other source it runs
    [return eval('('+L+')')] where [L], [json.dumps] of the source, holds
    printable ASCII only and is a double-quoted literal for the source
    itself, so that the argument of [eval] is the source in parentheses. *)
Theorem eval_builds_program (c : Context.t) (source : pystr) (m : Machine) :
  (forallb Str.isspace source = true ->
     Context._eval c source m = Context.exec_ c (u "return eval('')") m) /\
  (forallb Str.isspace source = false ->
     let lit := Json.dumps_str source in
     Context._eval c source m
     = Context.exec_ c (u "return eval(" ++ u "'('+" ++ lit ++ u "+')'" ++ u ")") m
     /\ Forall (fun x => printable_ascii x = true) lit
     /\ Js.string_literal_value lit = Some (Js.utf16 source)).
Proof.
  unfold Context._eval, Context.eval_code. split.
  - intros H. apply strip_nil in H. by rewrite H.
  - intros H. cbv zeta. split; [|split].
    + destruct (Str.strip source) eqn:E; [|by rewrite <- !app_assoc].
      apply strip_nil in E. congruence.
    + apply dumps_str_printable.
    + apply dumps_str_value.
Qed.

(** ** The result extractor *)

Lemma replace_cr_map (s : pystr) :
  Py.replace [13] [10] s = (fun c => if c =? 13 then 10 else c) <$> s.
Proof.
  unfold Py.replace. induction s as [|c s IH]; [done|].
  rewrite sub_scan_cons, fmap_cons, <- IH. simpl.
  destruct (N.eqb_spec 13 c) as [<-|Hne]; simpl.
  - done.
  - destruct (N.eqb_spec c 13); [congruence | done].
Qed.

Lemma replace_crlf_pair (s : pystr) :
  Py.replace [13; 10] [10] (13 :: 10 :: s)
  = 10 :: Py.replace [13; 10] [10] s.
Proof. reflexivity. Qed.

Lemma replace_crlf_other (c : N) (s : pystr) :
  Py.startswith [13; 10] (c :: s) = false ->
  Py.replace [13; 10] [10] (c :: s) = c :: Py.replace [13; 10] [10] s.
Proof.
  intros H. unfold Py.replace. rewrite sub_scan_cons.
  unfold Py.first_match. simpl negb. rewrite andb_true_l, H. done.
Qed.

(** The two [replace] calls do what the specification says in one pass. *)
Lemma normalize_newlines_spec (output : pystr) :
  Context.normalize_newlines output = newlines_to_lf output.
Proof.
  unfold Context.normalize_newlines. rewrite replace_cr_map.
  assert (H : forall n s, (length s <= n)%nat ->
            (fun c => if c =? 13 then 10 else c)
              <$> Py.replace [13; 10] [10] s = newlines_to_lf s).
  2:{ by apply (H (length output)). }
  induction n as [|n IH]; intros s Hlen.
  { destruct s; [done | simpl in Hlen; lia]. }
  destruct s as [|c s]; [done|]. simpl in Hlen.
  destruct (N.eqb_spec c 13) as [->|Hc].
  - destruct s as [|d s].
    + reflexivity.
    + destruct (N.eqb_spec d 10) as [->|Hd].
      * rewrite replace_crlf_pair, fmap_cons. simpl in Hlen.
        rewrite IH by lia. done.
      * rewrite replace_crlf_other.
        2:{ simpl. apply N.eqb_neq in Hd. rewrite N.eqb_sym in Hd.
            by rewrite Hd. }
        rewrite fmap_cons, IH by lia.
        simpl. apply N.eqb_neq in Hd. by rewrite Hd.
  - rewrite replace_crlf_other.
    2:{ simpl. apply N.eqb_neq in Hc. rewrite N.eqb_sym in Hc. by rewrite Hc. }
    rewrite fmap_cons, IH by lia.
    simpl. apply N.eqb_neq in Hc. by rewrite Hc.
Qed.

(** After the normalisation no carriage return is left. *)
Lemma newlines_to_lf_no_cr (s : pystr) : Py.has_char 13 (newlines_to_lf s) = false.
Proof.
  rewrite <- normalize_newlines_spec. unfold Context.normalize_newlines.
  rewrite replace_cr_map. generalize (Py.replace [13; 10] [10] s). intros t.
  induction t as [|c t IH]; [done|]. rewrite fmap_cons. simpl.
  rewrite IH, orb_false_r. destruct (N.eqb_spec c 13) as [->|Hc]; [done|].
  apply N.eqb_neq. congruence.
Qed.

(** The last element of a filtered list is the last element that passes. *)
Lemma last_filter_decomposed {A} (P : A -> Prop) `{forall x, Decision (P x)}
    (l pre post : list A) (x : A) :
  l = pre ++ x :: post -> P x -> Forall (fun y => ~ P y) post ->
  last (filter P l) = Some x.
Proof.
  intros -> Hx Hpost. rewrite filter_app, filter_cons_True by done.
  assert (filter P post = []) as ->.
  { induction Hpost as [|y post Hy _ IH]; [done|].
    by rewrite filter_cons_False. }
  apply last_snoc.
Qed.

Lemma is_ok_spec (status : pyvalue) :
  Context.is_ok status = true <-> status = PStr (u "ok").
Proof.
  destruct status; simpl; try (split; [discriminate | congruence]).
  rewrite bool_decide_eq_true. split; congruence.
Qed.

(** C1.  Whatever the raw output: the line endings are first brought to
    line feeds; of the lines of the result, the last one that holds a [']']
    is decoded; when it decodes to an array of status and value (the value
    absent counts as [None]), the value is returned for the status ["ok"]
    and a [ProgramError] carrying the value is raised for any other
    status. *)
Theorem extract_result_last_bracket_line (m : Machine) (output line : pystr)
    (status value : pyvalue) :
  (exists pre post,
     Py.splitlines (newlines_to_lf output) = pre ++ line :: post /\
     Py.has_char 93 line = true /\
     Forall (fun l => Py.has_char 93 l = false) post) ->
  (json_loads (host m) line = inl (PList [status; value]) \/
   json_loads (host m) line = inl (PList [status]) /\ value = PNone) ->
  Context.normalize_newlines output = newlines_to_lf output /\
  (status = PStr (u "ok") ->
     Context._extract_result output m = (Return value, m)) /\
  (status <> PStr (u "ok") ->
     Context._extract_result output m = (Raise (ProgramError value), m)).
Proof.
  intros (pre & post & Hlines & Hline & Hpost) Hjson.
  split; [apply normalize_newlines_spec|].
  assert (Hlast : last (Context.bracket_lines (newlines_to_lf output))
                  = Some line).
  { unfold Context.bracket_lines.
    apply (last_filter_decomposed _ _ pre post); [done | done |].
    eapply Forall_impl; [exact Hpost|]. simpl. intros l Hl. congruence. }
  assert (Hrun : Context._extract_result output m
                 = (if Context.is_ok status then Return value
                    else Raise (ProgramError value), m)).
  { unfold Context._extract_result.
    rewrite normalize_newlines_spec, Hlast.
    unfold bind, get_host. simpl.
    destruct Hjson as [->|[-> ->]]; simpl;
      unfold bind, ret, raise; simpl; by destruct (Context.is_ok status). }
  rewrite Hrun. split.
  - intros Hok. apply is_ok_spec in Hok. by rewrite Hok.
  - intros Hne. destruct (Context.is_ok status) eqn:E; [|done].
    by apply is_ok_spec in E.
Qed.

(** The scenario of the specification: a banner line without [']'], then
    the result line. *)
Lemma extract_result_after_banner :
  Context._extract_result
    (u "Welcome" ++ [13; 10] ++ Demo.ok_line ++ [13; 10]) Demo.linux_box
  = (Return (PInt 2), Demo.linux_box).
Proof.
  refine (proj1 (proj2 (extract_result_last_bracket_line Demo.linux_box
            (u "Welcome" ++ [13; 10] ++ Demo.ok_line ++ [13; 10])
            Demo.ok_line (PStr (u "ok")) (PInt 2) _ _)) eq_refl).
  - exists [u "Welcome"], []. split; [reflexivity|]. split; [reflexivity|].
    constructor.
  - left. reflexivity.
Defined.

(** ** The probe *)

Lemma find_in_dir_find join files dir prog pathext :
  find_in_dir join files dir prog pathext
  = List.find (accepted files) ((fun ext => join dir (prog ++ ext)) <$> pathext).
Proof.
  induction pathext as [|ext rest IH]; [done|].
  rewrite fmap_cons. simpl. unfold accepted at 1.
  destruct (files !! join dir (prog ++ ext)) as [st|]; [|exact IH].
  destruct (regular_and_executable (st_mode st)); [done | exact IH].
Qed.

Lemma find_app {A} (f : A -> bool) (l1 l2 : list A) :
  List.find f (l1 ++ l2)
  = match List.find f l1 with
    | Some x => Some x
    | None => List.find f l2
    end.
Proof.
  induction l1 as [|x l1 IH]; [done|]. simpl. by destruct (f x).
Qed.

Lemma find_in_path_find join files pathlist prog pathext :
  find_in_path join files pathlist prog pathext
  = List.find (accepted files) (candidates join pathlist prog pathext).
Proof.
  unfold candidates. induction pathlist as [|dir rest IH]; [done|].
  rewrite bind_cons, find_app, <- find_in_dir_find, <- IH. done.
Qed.

(** [find] returns the first element that passes. *)
Lemma find_first {A} (f : A -> bool) (l : list A) (x : A) :
  List.find f l = Some x <->
  exists pre post, l = pre ++ x :: post /\ f x = true /\
    Forall (fun y => f y = false) pre.
Proof.
  induction l as [|y l IH]; simpl.
  - split; [discriminate|]. intros (pre & post & H & _). by destruct pre.
  - destruct (f y) eqn:E.
    + split.
      * intros [= ->]. exists [], l. auto.
      * intros ([|z pre] & post & [= -> ->] & Hx & Hpre); [done|].
        apply Forall_cons in Hpre as [? _]. congruence.
    + rewrite IH. split.
      * intros (pre & post & -> & Hx & Hpre). exists (y :: pre), post. auto.
      * intros ([|z pre] & post & [= -> ->] & Hx & Hpre); [congruence|].
        apply Forall_cons in Hpre as [_ ?]. eauto.
Qed.

Lemma which_find (m : Machine) (name : pystr) (args : list pystr) :
  _which (name :: args) m
  = (Return
       match List.find (accepted (fs m))
               (candidates (path_join (host m)) (search_path m) name
                  (search_ext m)) with
       | Some (c :: p) => Some ((c :: p) :: args)
       | _ => None
       end, m).
Proof.
  unfold _which, search_ext, search_path, _is_windows, _find_executable,
    _decode_if_not_text, bind, get_host, get_fs, ret.
  simpl. rewrite <- find_in_path_find.
  destruct (bool_decide (platform_system (host m) = u "Windows")); simpl;
    match goal with
    | |- context [find_in_path ?j ?f ?l ?p ?e] =>
        destruct (find_in_path j f l p e) as [[|? ?]|]
    end; reflexivity.
Qed.

(** C5, as the code has it.  [_which] tries the candidates directory by
    directory in the order of [PATH] and, within a directory, extension by
    extension: the extensions of [PATHEXT] on Windows, the empty extension
    elsewhere.  On every platform a candidate is taken only when it exists,
    is a regular file and has an execute permission bit; the first such
    candidate is returned in front of the fixed arguments, and [None] when
    there is none. *)
Theorem which_first_accepted_candidate (m : Machine) (name : pystr)
    (args : list pystr) :
  let cands :=
    candidates (path_join (host m)) (search_path m) name (search_ext m) in
  (forall p,
     _which (name :: args) m = (Return (Some (p :: args)), m) <->
     p <> [] /\
     exists pre post, cands = pre ++ p :: post /\
       accepted (fs m) p = true /\
       Forall (fun q => accepted (fs m) q = false) pre) /\
  ((forall q, q ∈ cands -> accepted (fs m) q = false) ->
   _which (name :: args) m = (Return None, m)) /\
  (forall q, accepted (fs m) q = true <->
     exists st, fs m !! q = Some st /\ S_ISREG (st_mode st) = true /\
       N.land (S_IMODE (st_mode st)) 73 <> 0).
Proof.
  cbv zeta. rewrite which_find. split; [|split].
  - intros p. rewrite <- find_first.
    destruct (List.find _ _) as [[|c q]|]; split.
    + discriminate.
    + intros [Hne [= <-]]. done.
    + intros [= <-]. done.
    + intros [_ [= <-]]. done.
    + discriminate.
    + intros [_ [=]].
  - intros Hnone.
    destruct (List.find _ _) as [q|] eqn:E; [|done].
    apply find_first in E as (pre & post & Hc & Hq & _).
    rewrite Hnone in Hq; [discriminate|]. rewrite Hc.
    apply elem_of_app. right. left.
  - intros q. unfold accepted, regular_and_executable.
    destruct (fs m !! q) as [st|]; [|split; [done | by intros (? & ? & _)]].
    rewrite andb_true_iff, negb_true_iff, N.eqb_neq. split.
    + intros [? ?]. eauto.
    + intros (st' & [= <-] & ? & ?). done.
Qed.

(** C5 as stated fails: on Windows, with [PATH] set to [C:\bin] and
    [PATHEXT] to [.EXE], the one candidate [C:\bin\node.EXE] exists but is a
    directory, and the probe, which checks the file type and the execute
    bits on Windows too, returns [None]. *)
Lemma which_checks_mode_on_windows :
  candidates (path_join (host Demo.windows_box))
    (search_path Demo.windows_box) (u "node") (search_ext Demo.windows_box)
  = [u "C:\bin\node.EXE"] /\
  is_Some (fs Demo.windows_box !! u "C:\bin\node.EXE") /\
  _which [u "node"] Demo.windows_box = (Return None, Demo.windows_box).
Proof.
  split; [vm_compute; reflexivity|]. split.
  - eexists. vm_compute. reflexivity.
  - vm_compute. reflexivity.
Qed.

(** ** Running a program *)

#[local] Arguments Context.compile_text : simpl never.
#[local] Arguments Context._extract_result : simpl never.
#[local] Arguments Py.splitlines : simpl never.
#[local] Arguments Py.contains : simpl never.

Lemma binary_cached (m : Machine) (b : option (list pystr)) :
  _binary_cache (self m) = Some b -> _binary m = (Return b, m).
Proof. intros H. unfold _binary, bind, get_self. simpl. by rewrite H. Qed.


Lemma splitlines_cons (c : N) (s : pystr) :
  Py.splitlines (c :: s)
  = if Py.is_linebreak c then
      match s with
      | d :: s' => if (c =? 13) && (d =? 10) then [] :: Py.splitlines s'
                   else [] :: Py.splitlines s
      | [] => [[]]
      end
    else match Py.splitlines s with
         | [] => [[c]]
         | l :: ls => (c :: l) :: ls
         end.
Proof. reflexivity. Qed.

(** No line of [splitlines] holds a line boundary. *)
Lemma splitlines_no_break (s : pystr) :
  Forall (Forall (fun ch => Py.is_linebreak ch = false)) (Py.splitlines s).
Proof.
  assert (H : forall n s, (length s <= n)%nat ->
            Forall (Forall (fun ch => Py.is_linebreak ch = false))
              (Py.splitlines s)).
  2:{ by apply (H (length s)). }
  clear s. induction n as [|n IH]; intros s Hlen.
  { destruct s; [constructor | simpl in Hlen; lia]. }
  destruct s as [|c s]; [constructor|]. simpl in Hlen.
  rewrite splitlines_cons. destruct (Py.is_linebreak c) eqn:Hc.
  - destruct s as [|d s]; [by repeat constructor|].
    destruct ((c =? 13) && (d =? 10)).
    + constructor; [constructor|]. apply IH. simpl in Hlen. lia.
    + constructor; [constructor|]. apply IH. lia.
  - specialize (IH s ltac:(lia)).
    destruct (Py.splitlines s) as [|l ls]; [by repeat constructor|].
    apply Forall_cons in IH as [Hl Hls]. by repeat constructor.
Qed.

Lemma concat_splitlines_no_break (s : pystr) :
  Forall (fun ch => Py.is_linebreak ch = false) (concat (Py.splitlines s)).
Proof.
  pose proof (splitlines_no_break s) as H.
  induction H as [|l ls Hl _ IH]; [constructor|].
  simpl. by apply Forall_app.
Qed.

(** A text without line boundaries is at most one line. *)
Lemma splitlines_single (s : pystr) :
  Forall (fun ch => Py.is_linebreak ch = false) s ->
  Py.splitlines s = match s with [] => [] | _ => [s] end.
Proof.
  induction 1 as [|c s Hc _ IH]; [done|].
  rewrite splitlines_cons, Hc, IH. by destruct s.
Qed.

(** Joining the lines of a text takes the line boundaries out of it and
    nothing else. *)
Lemma concat_splitlines (s : pystr) :
  concat (Py.splitlines s) = filter (fun ch => Py.is_linebreak ch = false) s.
Proof.
  assert (H : forall n s, (length s <= n)%nat ->
            concat (Py.splitlines s)
            = filter (fun ch => Py.is_linebreak ch = false) s).
  2:{ by apply (H (length s)). }
  clear s. induction n as [|n IH]; intros s Hlen.
  { destruct s; [done | simpl in Hlen; lia]. }
  destruct s as [|c s]; [done|]. simpl in Hlen.
  rewrite splitlines_cons. destruct (Py.is_linebreak c) eqn:Hc.
  - rewrite filter_cons_False by (by rewrite Hc).
    destruct s as [|d s]; [done|].
    destruct ((c =? 13) && (d =? 10)) eqn:Hcrlf.
    + apply andb_true_iff in Hcrlf as [_ Hd]. apply N.eqb_eq in Hd. subst d.
      rewrite filter_cons_False by done. simpl. apply IH.
      simpl in Hlen. lia.
    + simpl. apply IH. lia.
  - rewrite filter_cons_True by done. specialize (IH s ltac:(lia)).
    destruct (Py.splitlines s) as [|l ls]; simpl in *; by rewrite <- IH.
Qed.

(** *** What a step leaves alone *)

Ltac unfold_monad :=
  unfold bind, ret, raise, try_finally, get_host, get_self, set_self, get_fs,
    set_fs, log_spawn, get_sessions, set_sessions in *.

Section Frames.
Context (R : relation Machine) `{!PreOrder R} (E : exn -> Prop).

Lemma keeps_ret {A} (a : A) : keeps R (ret a).
Proof. intros m. reflexivity. Qed.

Lemma keeps_raise {A} (e : exn) : keeps R (raise (A:=A) e).
Proof. intros m. reflexivity. Qed.

Lemma keeps_bind {A B} (c : M A) (k : A -> M B) :
  keeps R c -> (forall a, keeps R (k a)) -> keeps R (bind c k).
Proof.
  intros Hc Hk m. unfold bind. specialize (Hc m).
  destruct (c m) as [[a|e] m1]; simpl in *; [|done].
  etrans; [exact Hc | apply Hk].
Qed.

Lemma keeps_try_finally {A} (body : M A) (cleanup : M unit) :
  keeps R body -> keeps R cleanup -> keeps R (try_finally body cleanup).
Proof.
  intros Hb Hc m. unfold try_finally. specialize (Hb m).
  destruct (body m) as [r m1]. specialize (Hc m1). simpl in *.
  destruct (cleanup m1) as [[[]|e] m2]; simpl in *; by etrans.
Qed.

Lemma keeps_discard {A} (c : M A) : keeps R c -> keeps R (discard c).
Proof. intros Hc m. apply Hc. Qed.

Lemma keeps_read {A} (f : Machine -> A) : keeps R (fun m => (Return (f m), m)).
Proof. intros m. reflexivity. Qed.

Lemma raises_only_ret {A} (a : A) : raises_only E (ret a).
Proof. intros m e. discriminate. Qed.

Lemma raises_only_raise {A} (e : exn) : E e -> raises_only E (raise (A:=A) e).
Proof. intros He m e' [= <-]. exact He. Qed.

Lemma raises_only_bind {A B} (c : M A) (k : A -> M B) :
  raises_only E c -> (forall a, raises_only E (k a)) ->
  raises_only E (bind c k).
Proof.
  intros Hc Hk m e. unfold bind. specialize (Hc m).
  destruct (c m) as [[a|e'] m1]; simpl in *; [apply Hk|].
  intros [= <-]. by apply Hc.
Qed.

Lemma raises_only_try_finally {A} (body : M A) (cleanup : M unit) :
  raises_only E body -> raises_only E cleanup ->
  raises_only E (try_finally body cleanup).
Proof.
  intros Hb Hc m e. unfold try_finally. specialize (Hb m).
  destruct (body m) as [r m1]. specialize (Hc m1). simpl in *.
  destruct (cleanup m1) as [[[]|e'] m2]; simpl in *; [apply Hb|].
  intros [= <-]. by apply Hc.
Qed.

Lemma raises_only_total {A} (f : Machine -> A * Machine) :
  raises_only E (fun m => (Return (f m).1, (f m).2)).
Proof. intros m e. discriminate. Qed.

End Frames.

(** Taking a computation apart along its binds and case distinctions. *)
Ltac frame_step :=
  match goal with
  | |- keeps _ (bind _ _) => refine (keeps_bind _ _ _ _ _); [|intros ?]
  | |- keeps _ (ret _) => refine (keeps_ret _ _)
  | |- keeps _ (raise _) => refine (keeps_raise _ _)
  | |- keeps _ (try_finally _ _) => refine (keeps_try_finally _ _ _ _ _)
  | |- keeps _ (discard _) => refine (keeps_discard _ _ _)
  | |- raises_only _ (bind _ _) => apply raises_only_bind; [|intros ?]
  | |- raises_only _ (ret _) => apply raises_only_ret
  | |- raises_only _ (raise _) => apply raises_only_raise; try done
  | |- raises_only _ (try_finally _ _) => apply raises_only_try_finally
  | |- keeps _ (match ?x with _ => _ end) => destruct x
  | |- raises_only _ (match ?x with _ => _ end) => destruct x
  | |- keeps _ _ => solve [eauto with frame]
  | |- raises_only _ _ => solve [eauto with frame]
  | |- keeps _ _ => solve [intros ?; hnf; simpl; done]
  | |- raises_only _ _ => solve [intros ? ?; simpl; done]
  end.

Ltac frame := repeat frame_step.

Create HintDb frame.

Lemma json_exn_other (f : json_failure) : other (json_exn f).
Proof. by destruct f. Qed.

Lemma extract_result_quiet (output : pystr) :
  keeps eq (Context._extract_result output) /\
  raises_only other (Context._extract_result output).
Proof.
  unfold Context._extract_result, Context.unpack2, Context.py_item0.
  split; frame. apply json_exn_other.
Qed.

#[local] Instance same_log_preorder : PreOrder same_log.
Proof.
  split; [done|]. intros a b c Hab Hbc. unfold same_log in *. congruence.
Qed.

#[local] Instance same_world_preorder : PreOrder same_world.
Proof.
  split; [done|]. intros a b c Hab Hbc. unfold same_world in *.
  destruct Hab as (? & ? & ? & ?), Hbc as (? & ? & ? & ?).
  repeat split; congruence.
Qed.

Lemma which_quiet (command : list pystr) :
  keeps eq (_which command) /\ raises_only other (_which command).
Proof.
  destruct command as [|name args].
  { split; [done|]. by intros m e [= <-]. }
  split; intros m; rewrite which_find; [done | by intros e].
Qed.

Lemma binary_quiet :
  keeps same_world _binary /\ raises_only other _binary.
Proof.
  unfold _binary. split; frame.
  - intros m. destruct (which_quiet (_command a)) as [H _].
    specialize (H m). hnf. by rewrite <- H.
  - apply which_quiet.
Qed.

(** [communicate], case by case. *)
Lemma communicate_run (args : list pystr) (input cwd : option pystr)
    (m : Machine) :
  communicate args input cwd m
  = match match input with
          | None => Some None
          | Some text => Some <$> pipe_encode (host m) text
          end with
    | None => (Raise UnicodeError, m)
    | Some data =>
        let c := {| argv := args; stdin := data; popen_cwd := cwd |} in
        (match decoded (host m) (run_process (host m) c (fs m)).1 with
         | Some r => Return r
         | None => Raise UnicodeError
         end,
         ran c (fs m) (run_process (host m) c (fs m)).1
           (run_process (host m) c (fs m)).2 m)
    end.
Proof.
  unfold communicate, decoded, ran. unfold_monad.
  destruct input as [text|]; simpl.
  - destruct (pipe_encode (host m) text) as [bytes|]; simpl; [|done].
    destruct (run_process (host m) _ (fs m)) as [res files']. simpl.
    destruct (pipe_decode (host m) (stdout_bytes res)); [|done].
    by destruct (pipe_decode (host m) (stderr_bytes res)).
  - destruct (run_process (host m) _ (fs m)) as [res files']. simpl.
    destruct (pipe_decode (host m) (stdout_bytes res)); [|done].
    by destruct (pipe_decode (host m) (stderr_bytes res)).
Qed.

#[local] Arguments communicate : simpl never.

(** [_exec_with_pipe] on a constructed runtime whose executable can be
    started. *)
Lemma exec_with_pipe_run (c : Context.t) (source cmd0 : pystr)
    (args : list pystr) (m : Machine) :
  _binary_cache (self m) = Some (Some (cmd0 :: args)) ->
  can_spawn (host m) (cmd0 :: args) (Context._cwd c) = true ->
  let text := Context.compile_text (json2_source (host m)) source
                (_runner_source (self m)) in
  let input := if Py.contains (u "deno") cmd0
               then concat (Py.splitlines text) else text in
  Context._exec_with_pipe c source m
  = match pipe_encode (host m) input with
    | None => (Raise UnicodeError, m)
    | Some bytes =>
        let call := {| argv := cmd0 :: args; stdin := Some bytes;
                       popen_cwd := Context._cwd c |} in
        (exit_status_outcome (host m) (run_process (host m) call (fs m)).1,
         ran call (fs m) (run_process (host m) call (fs m)).1
           (run_process (host m) call (fs m)).2 m)
    end.
Proof.
  intros Hbin Hspawn text input.
  unfold Context._exec_with_pipe. unfold bind at 1.
  rewrite (binary_cached _ _ Hbin). cbv beta iota.
  unfold Popen, Context._compile. unfold_monad. simpl. rewrite Hspawn. simpl.
  fold text. fold input. rewrite communicate_run. cbv beta iota zeta.
  destruct (pipe_encode (host m) input) as [bytes|]; simpl; [|done].
  set (call := {| argv := cmd0 :: args; stdin := Some bytes;
                  popen_cwd := Context._cwd c |}).
  destruct (run_process (host m) call (fs m)) as [res files']. simpl.
  unfold exit_status_outcome, Context._fail_on_non_zero_status.
  unfold_monad. destruct (decoded (host m) res) as [r|]; [|done].
  by destruct (bool_decide (returncode r <> 0%Z)).
Qed.

(** C8.  In pipe mode, for a constructed runtime whose executable can be
    started, the process is given on its standard input the encoded
    program: flattened when the path of the executable contains [deno],
    as it is otherwise.  The flattened text is what
    [''.join(text.splitlines())] gives, the text with every line boundary
    taken out and nothing put in; it is at most a single line.  A text
    the pipe cannot encode raises, and the engine is fed nothing. *)
Theorem pipe_flattens_for_deno (m : Machine) (c : Context.t)
    (source cmd0 : pystr) (args : list pystr) :
  _binary_cache (self m) = Some (Some (cmd0 :: args)) ->
  can_spawn (host m) (cmd0 :: args) (Context._cwd c) = true ->
  let text := Context.compile_text (json2_source (host m)) source
                (_runner_source (self m)) in
  let flat := filter (fun ch => Py.is_linebreak ch = false) text in
  let input := if Py.contains (u "deno") cmd0 then flat else text in
  concat (Py.splitlines text) = flat /\
  (length (Py.splitlines flat) <= 1)%nat /\
  (forall bytes, pipe_encode (host m) input = Some bytes ->
     exists p,
       spawned (Context._exec_with_pipe c source m).2 = spawned m ++ [p] /\
       call p = {| argv := cmd0 :: args; stdin := Some bytes;
                   popen_cwd := Context._cwd c |} /\
       seen p = fs m) /\
  (pipe_encode (host m) input = None ->
   Context._exec_with_pipe c source m = (Raise UnicodeError, m)).
Proof.
  intros Hbin Hspawn text flat input.
  pose proof (concat_splitlines text) as Hflat. fold flat in Hflat.
  split; [exact Hflat|]. split.
  { rewrite splitlines_single.
    - destruct flat; simpl; lia.
    - rewrite <- Hflat. apply concat_splitlines_no_break. }
  rewrite (exec_with_pipe_run c source cmd0 args m Hbin Hspawn).
  cbv zeta. fold text. rewrite Hflat. fold input. split.
  - intros bytes ->. eexists. simpl. eauto.
  - by intros ->.
Qed.

Lemma communicate_cases (args : list pystr) (input cwd : option pystr)
    (m : Machine) :
  let r := communicate args input cwd m in
  r = (Raise UnicodeError, m) \/
  exists data files' res,
    run_process (host m) {| argv := args; stdin := data; popen_cwd := cwd |}
      (fs m) = (res, files') /\
    r = (match decoded (host m) res with
         | Some x => Return x
         | None => Raise UnicodeError
         end,
         ran {| argv := args; stdin := data; popen_cwd := cwd |} (fs m) res
           files' m).
Proof.
  cbv zeta. rewrite communicate_run.
  destruct (match input with
            | Some text => Some <$> pipe_encode (host m) text
            | None => Some None
            end) as [data|]; [|by left].
  right. exists data. cbv zeta.
  destruct (run_process (host m) _ (fs m)) as [res files']. eauto.
Qed.



Lemma mkstemp_loop_fresh tries i h files prefix suffix f :
  mkstemp_loop tries i h files prefix suffix = Some f ->
  files !! f = None /\
  exists k, f = path_join h (gettempdir h)
                  (prefix ++ candidate_names h k ++ suffix).
Proof.
  revert i. induction tries as [|n IH]; intros i; simpl; [done|].
  destruct (files !! path_join h (gettempdir h)
                        (prefix ++ candidate_names h i ++ suffix)) eqn:E.
  - apply IH.
  - intros [= <-]. eauto.
Qed.




#[local] Arguments mkstemp_loop : simpl never.
#[local] Arguments TMP_MAX : simpl never.

Lemma mkstemp_run (prefix suffix : pystr) (m : Machine) :
  mkstemp prefix suffix m
  = match mkstemp_loop TMP_MAX 0 (host m) (fs m) prefix suffix with
    | Some f => (Return f, with_new_file f m)
    | None => (Raise FileExistsError, m)
    end.
Proof.
  unfold mkstemp, bind, get_host, get_fs, set_fs, ret, raise, with_new_file.
  cbv beta iota.
  by destruct (mkstemp_loop TMP_MAX 0 (host m) (fs m) prefix suffix).
Qed.

Lemma exec_with_tempfile_run (c : Context.t) (source : pystr) (m : Machine) :
  Context._exec_with_tempfile c source m
  = match mkstemp_loop TMP_MAX 0 (host m) (fs m) (u "execjs") (u ".js") with
    | Some f =>
        try_finally (Context.tempfile_body c source f) (os_remove f)
          (with_new_file f m)
    | None => (Raise FileExistsError, m)
    end.
Proof.
  unfold Context._exec_with_tempfile. unfold bind at 1.
  rewrite mkstemp_run.
  by destruct (mkstemp_loop TMP_MAX 0 (host m) (fs m) _ _).
Qed.













(** ** The session *)

#[local] Arguments Str.partition : simpl never.

Lemma partition_unfold (pat s : pystr) :
  Str.partition pat s
  = if Py.startswith pat s then Some ([], drop (length pat) s)
    else match s with
         | [] => None
         | c :: s' =>
             match Str.partition pat s' with
             | Some (b, a) => Some (c :: b, a)
             | None => None
             end
         end.
Proof. by destruct s. Qed.

(** [partition] cuts at the first occurrence of the pattern. *)
Lemma partition_first (pat s b a : pystr) :
  s = b ++ pat ++ a ->
  (forall b' a', s = b' ++ pat ++ a' -> (length b <= length b')%nat) ->
  Str.partition pat s = Some (b, a).
Proof.
  revert s. induction b as [|c b IH]; intros s -> Hmin.
  - rewrite partition_unfold. simpl. rewrite startswith_app.
    by rewrite drop_app_length.
  - rewrite partition_unfold.
    destruct (Py.startswith pat ((c :: b) ++ pat ++ a)) eqn:E.
    { apply startswith_spec in E as [t Ht].
      specialize (Hmin [] t Ht). simpl in Hmin. lia. }
    simpl. rewrite (IH (b ++ pat ++ a)); [done | done |].
    intros b' a' Hb'. specialize (Hmin (c :: b') a').
    simpl in Hmin. rewrite Hb' in Hmin. specialize (Hmin eq_refl). lia.
Qed.


(** ** The descriptor *)

#[local] Instance same_configuration_preorder : PreOrder same_configuration.
Proof.
  split; [done|]. intros a b c Hab Hbc Ha. unfold same_configuration in *.
  specialize (Hab Ha). rewrite <- Hab. apply Hbc.
  unfold configuration in Hab. injection Hab as _ _ _ _ _ _ Hcache _.
  by rewrite Hcache.
Qed.

Lemma binary_keeps_configuration : keeps same_configuration _binary.
Proof.
  intros m Hcache. unfold _binary. unfold_monad. simpl.
  destruct (_binary_cache (self m)); [done | by destruct Hcache].
Qed.

Lemma keeps_update_self {A} (f : ExternalRuntime -> ExternalRuntime)
    (k : ExternalRuntime -> M A) :
  (forall r, configuration (f r) = configuration r) ->
  (forall r, keeps same_configuration (k r)) ->
  keeps same_configuration
    (bind get_self (fun r => bind (set_self (f r)) (fun _ => k r))).
Proof.
  intros Hf Hk m. unfold_monad. simpl.
  etrans; [|apply Hk]. intros _. simpl. apply Hf.
Qed.

#[local] Hint Resolve binary_keeps_configuration : frame.

Lemma session_keeps_configuration : keeps same_configuration session.
Proof.
  unfold session.
  refine (keeps_bind _ _ _ _ _); [frame|intros cmd].
  refine (keeps_bind _ _ _ _ _); [unfold pyexpect_spawn; frame|intros s].
  apply keeps_update_self; [done|]. intros r.
  unfold expect, update_session. frame.
Qed.

Lemma exec_with_pipe_keeps_configuration c source :
  keeps same_configuration (Context._exec_with_pipe c source).
Proof.
  unfold Context._exec_with_pipe, Popen, communicate, Context._compile,
    Context._fail_on_non_zero_status.
  frame.
Qed.

Lemma exec_with_tempfile_keeps_configuration c source :
  keeps same_configuration (Context._exec_with_tempfile c source).
Proof.
  unfold Context._exec_with_tempfile, Context.tempfile_body, mkstemp,
    write_text, os_remove, Popen, communicate, Context._compile,
    Context._fail_on_non_zero_status.
  frame.
Qed.

Lemma exec_with_session_keeps_configuration c source :
  keeps same_configuration (Context._exec_with_session c source).
Proof.
  unfold Context._exec_with_session, sendline, expect, get_before,
    update_session, _is_windows, Context._compile.
  frame.
Qed.

Lemma extract_result_keeps_configuration output :
  keeps same_configuration (Context._extract_result output).
Proof.
  intros m. destruct (extract_result_quiet output) as [H _].
  specialize (H m). hnf in H. by rewrite <- H.
Qed.

#[local] Hint Resolve session_keeps_configuration
  exec_with_pipe_keeps_configuration exec_with_tempfile_keeps_configuration
  exec_with_session_keeps_configuration extract_result_keeps_configuration
  : frame.

Lemma exec_keeps_configuration c source :
  keeps same_configuration (Context._exec_ c source).
Proof. unfold Context._exec_. frame. Qed.

#[local] Hint Resolve exec_keeps_configuration : frame.

Lemma eval_keeps_configuration c source :
  keeps same_configuration (Context._eval c source).
Proof.
  unfold Context._eval, Context.exec_, Context.is_available, is_available.
  frame.
Qed.

#[local] Hint Resolve eval_keeps_configuration : frame.

Lemma invoke_keeps_configuration (f : method) :
  keeps same_configuration (invoke f).
Proof.
  destruct f; unfold invoke; refine (keeps_discard _ _ _);
    unfold __str__, name, is_available, _compile, Context.is_available,
      is_available, Context._call, Context._compile;
    frame.
Qed.

Lemma after_keeps_configuration (calls : list method) (m : Machine) :
  same_configuration m (after calls m).
Proof.
  revert m. induction calls as [|f calls IH]; intros m; [done|].
  unfold after. simpl. etrans; [apply (invoke_keeps_configuration f)|].
  apply IH.
Qed.

Lemma init_builds_descriptor (nm : pystr) (command : pystr + list pystr)
    (runner_source encoding : pystr) (tempfile : bool) (prompt : pystr)
    (m0 : Machine) :
  let r := __init__ nm command runner_source encoding tempfile prompt m0 in
  r.1 = Return tt ->
  exists b,
    self r.2
    = {| _name := nm;
         _command := match command with inl c => [c] | inr l => l end;
         _runner_source := runner_source; _encoding := encoding;
         _tempfile := tempfile; _session := None; _prompt := prompt;
         _binary_cache := Some b;
         _available := Some (bool_decide (b <> None)) |}.
Proof.
  cbv zeta. unfold __init__, _binary. unfold_monad. simpl.
  set (cmd := match command with inl c => [c] | inr l => l end).
  destruct cmd as [|c0 args]; [discriminate|].
  rewrite which_find. simpl. intros _. eauto.
Qed.

(** C9, as the code has it.  After [__init__] has returned, no sequence of
    calls on the runtime or on its contexts changes the name, the command,
    the runner source, the encoding, the tempfile flag, the prompt, the
    cached executable or the availability, and these are what the
    constructor was given and found.  The one field that is assigned
    later is [_session], by [session()]. *)
Theorem configuration_is_never_mutated (nm : pystr)
    (command : pystr + list pystr) (runner_source encoding : pystr)
    (tempfile : bool) (prompt : pystr) (m0 : Machine)
    (calls : list method) :
  let r := __init__ nm command runner_source encoding tempfile prompt m0 in
  r.1 = Return tt ->
  configuration (self (after calls r.2)) = configuration (self r.2) /\
  _name (self (after calls r.2)) = nm /\
  _command (self (after calls r.2))
    = match command with inl c => [c] | inr l => l end /\
  _runner_source (self (after calls r.2)) = runner_source /\
  _encoding (self (after calls r.2)) = encoding /\
  _tempfile (self (after calls r.2)) = tempfile /\
  _prompt (self (after calls r.2)) = prompt.
Proof.
  intros r Hr.
  destruct (init_builds_descriptor _ _ _ _ _ _ _ Hr) as [b Hself].
  fold r in Hself.
  assert (Hconf : configuration (self (after calls r.2))
                  = configuration (self r.2)).
  { apply after_keeps_configuration. rewrite Hself. simpl. eauto. }
  split; [exact Hconf|].
  rewrite Hself in Hconf. unfold configuration in Hconf. simpl in Hconf.
  injection Hconf as -> -> -> -> -> -> _ _. done.
Qed.

(** C9 as stated fails: on the runtime made by
    [ExternalRuntime("Node", ["node"], runner, "ascii", False, "> ")] the
    field [_session] is [None], and the call [session()] assigns it. *)
Lemma session_mutates_descriptor :
  (__init__ (u "Node") (inr [u "node"]) Demo.runner (u "ascii") false
     (u "> ") Demo.linux_box).1 = Return tt /\
  _session (self (Demo.node_box false)) = None /\
  _session (self (after [Runtime_session] (Demo.node_box false)))
    = Some 0%nat /\
  self (after [Runtime_session] (Demo.node_box false))
    <> self (Demo.node_box false).
Proof.
  split; [vm_compute; reflexivity|]. split; [vm_compute; reflexivity|].
  split; [vm_compute; reflexivity|].
  intros H. apply (f_equal _session) in H. vm_compute in H. discriminate.
Qed.

(** ** The theorems at work on the demonstration machines *)




(** The pipe of an engine whose path has [deno]: a program of two lines
    reaches it as one. *)
Lemma pipe_on_deno_box :
  exists p,
    spawned (Context._exec_with_pipe Demo.pipe_context
               (u "return" ++ [13; 10] ++ u " 1+1") Cases.deno_box).2
    = spawned Cases.deno_box ++ [p] /\
    argv (call p) = [u "/usr/bin/deno"] /\
    stdin (call p)
    = Some (u "print(JSON.stringify(['ok', (function(){ return 1+1 })()]))").
Proof.
  pose proof (pipe_flattens_for_deno Cases.deno_box Demo.pipe_context
                (u "return" ++ [13; 10] ++ u " 1+1") (u "/usr/bin/deno") [])
    as H.
  cbv zeta in H.
  destruct H as (_ & _ & H & _);
    [vm_compute; reflexivity | vm_compute; reflexivity |].
  destruct (H (u "print(JSON.stringify(['ok', (function(){ return 1+1 })()]))"))
    as (p & Hlog & Hcall & _); [vm_compute; reflexivity|].
  exists p. split; [exact Hlog|]. by rewrite Hcall.
Defined.

(** The demonstration runtime, after a few calls. *)
Lemma configuration_on_node_box :
  _name (self (after [Runtime_session; Runtime_binary]
                 (Demo.node_box false))) = u "Node".
Proof.
  refine (proj1 (proj2 (configuration_is_never_mutated (u "Node")
            (inr [u "node"]) Demo.runner (u "ascii") false (u "> ")
            Demo.linux_box [Runtime_session; Runtime_binary] _))).
  vm_compute. reflexivity.
Defined.

(** [_eval] on a blank source and on [1+1]. *)
Lemma eval_on_blank_source :
  Context._eval Demo.pipe_context [32; 10] (Demo.node_box false)
  = Context.exec_ Demo.pipe_context (u "return eval('')") (Demo.node_box false).
Proof.
  exact (proj1 (eval_builds_program Demo.pipe_context [32; 10]
                  (Demo.node_box false)) eq_refl).
Defined.

(** A template with the raw source between two pieces of text. *)
Lemma compile_on_small_template :
  Context.compile_text (u "var JSON;") (u "1+1")
    (u "f(" ++ u "#{source}" ++ u ")")
  = u "f(" ++ u "1+1" ++ u ")".
Proof.
  destruct (compile_replaces_template_placeholders (u "var JSON;") (u "1+1"))
    as (Hsplit & Hfree & _).
  cbv zeta in Hsplit, Hfree.
  rewrite (Hsplit (u "f(") (u "#{source}") (u "1+1") (u ")")).
  - rewrite !Hfree by reflexivity. reflexivity.
  - unfold Context.replacements. left.
Defined.

(** The probe on the demonstration machine: [/usr/bin/node] is the first
    candidate and is taken. *)
Lemma which_on_linux_box :
  _which [u "node"] Demo.linux_box
  = (Return (Some [u "/usr/bin/node"]), Demo.linux_box).
Proof.
  apply (proj1 (which_first_accepted_candidate Demo.linux_box (u "node") [])).
  split; [discriminate|].
  exists [], [u "/bin/node"].
  split; [vm_compute; reflexivity|]. split; [vm_compute; reflexivity|].
  constructor.
Defined.

(** The escape of [U+00E9] reads back as that code point. *)
Lemma escape_of_e_acute :
  exists h3 h2 h1 h0,
    unicode_escape 233 = [92; 117; h3; h2; h1; h0] /\
    Js.hex4 h3 h2 h1 h0 = Some 233.
Proof.
  apply (proj2 (proj2 (proj2 (proj2 (proj2 (proj2
           (encoded_source_is_ascii_literal [] []))))))).
  reflexivity.
Defined.

(** ** Outputs the extractor cannot use *)

(** Without a line that holds [']'] the indexing [[-1]] raises. *)
Lemma extract_result_no_bracket_line (output : pystr) (m : Machine) :
  Forall (fun l => Py.has_char 93 l = false)
    (Py.splitlines (newlines_to_lf output)) ->
  Context._extract_result output m = (Raise IndexError, m).
Proof.
  intros H. unfold Context._extract_result.
  rewrite normalize_newlines_spec. unfold Context.bracket_lines.
  assert (filter (fun line => Py.has_char 93 line = true)
            (Py.splitlines (newlines_to_lf output)) = []) as ->; [|done].
  induction H as [|l ls Hl _ IH]; [done|].
  rewrite filter_cons_False; [done | congruence].
Qed.

(** A selected line that [json.loads] fails on raises the error of the
    decoder. *)
Lemma extract_result_undecodable (output line : pystr) (m : Machine)
    (f : json_failure) :
  last (Context.bracket_lines (newlines_to_lf output)) = Some line ->
  json_loads (host m) line = inr f ->
  Context._extract_result output m = (Raise (json_exn f), m).
Proof.
  intros Hlast Hjson. unfold Context._extract_result.
  rewrite normalize_newlines_spec, Hlast. unfold bind, get_host. simpl.
  by rewrite Hjson.
Qed.

(** * Further properties of the module *)

(** ** Lines and the extractor *)

Lemma splitlines_break_cons (c : N) (x : pystr) :
  Py.is_linebreak c = true -> (c <> 13 \/ head x <> Some 10) ->
  Py.splitlines (c :: x) = [] :: Py.splitlines x.
Proof.
  intros Hc Hne. rewrite splitlines_cons, Hc.
  destruct x as [|d x]; [done|].
  destruct ((c =? 13) && (d =? 10)) eqn:E; [|done].
  apply andb_true_iff in E as [->%N.eqb_eq ->%N.eqb_eq].
  by destruct Hne.
Qed.

Lemma splitlines_newlines_to_lf (s : pystr) :
  Py.splitlines (newlines_to_lf s) = Py.splitlines s.
Proof.
  assert (H : forall n s, (length s <= n)%nat ->
            Py.splitlines (newlines_to_lf s) = Py.splitlines s).
  2:{ by apply (H (length s)). }
  clear s. induction n as [|n IH]; intros s Hlen.
  { destruct s; [done | simpl in Hlen; lia]. }
  destruct s as [|c s]; [done|]. simpl in Hlen.
  destruct (N.eqb_spec c 13) as [->|Hc].
  - destruct s as [|d s]; [done|].
    destruct (N.eqb_spec d 10) as [->|Hd].
    + change (newlines_to_lf (13 :: 10 :: s)) with (10 :: newlines_to_lf s).
      rewrite splitlines_break_cons by (done || by left).
      rewrite IH by (simpl in Hlen; lia). done.
    + assert (E : newlines_to_lf (13 :: d :: s)
                  = 10 :: newlines_to_lf (d :: s)).
      { simpl. apply N.eqb_neq in Hd. by rewrite Hd. }
      rewrite E, splitlines_break_cons by (done || by left).
      rewrite IH by lia.
      symmetry. apply splitlines_break_cons; [done|].
      right. simpl. congruence.
  - assert (E : newlines_to_lf (c :: s) = c :: newlines_to_lf s).
    { simpl. apply N.eqb_neq in Hc. by rewrite Hc. }
    rewrite E. destruct (Py.is_linebreak c) eqn:Hb.
    + rewrite !splitlines_break_cons by (done || by left).
      by rewrite IH by lia.
    + rewrite !splitlines_cons, Hb, IH by lia. done.
Qed.

(** X1.  The normalisation of the line endings does not change the lines:
    [splitlines] already takes CR LF and a lone CR as one boundary each, so
    the extractor sees the same lines, and selects the same last line that
    holds a [']'], with and without the two [replace] calls. *)
Theorem normalisation_keeps_lines (output : pystr) :
  Py.splitlines (Context.normalize_newlines output) = Py.splitlines output /\
  Context.bracket_lines (Context.normalize_newlines output)
  = Context.bracket_lines output.
Proof.
  unfold Context.bracket_lines.
  by rewrite normalize_newlines_spec, splitlines_newlines_to_lf.
Qed.

(** A character that the text does not hold is in none of its lines. *)
Lemma splitlines_has_char (k : N) (s : pystr) :
  Py.has_char k s = false ->
  Forall (fun l => Py.has_char k l = false) (Py.splitlines s).
Proof.
  assert (H : forall n s, (length s <= n)%nat -> Py.has_char k s = false ->
            Forall (fun l => Py.has_char k l = false) (Py.splitlines s)).
  2:{ by apply (H (length s)). }
  clear s. induction n as [|n IH]; intros s Hlen Hk.
  { destruct s; [constructor | simpl in Hlen; lia]. }
  destruct s as [|c s]; [constructor|]. simpl in Hlen.
  simpl in Hk. apply orb_false_iff in Hk as [Hkc Hks].
  rewrite splitlines_cons. destruct (Py.is_linebreak c).
  - destruct s as [|d s]; [by repeat constructor|].
    destruct ((c =? 13) && (d =? 10)).
    + constructor; [done|]. apply IH; [simpl in Hlen; lia|].
      simpl in Hks. by apply orb_false_iff in Hks as [_ ?].
    + constructor; [done|]. apply IH; [lia | done].
  - specialize (IH s ltac:(lia) Hks).
    destruct (Py.splitlines s) as [|l ls].
    + repeat constructor. simpl. by rewrite Hkc.
    + apply Forall_cons in IH as [Hl Hls]. constructor; [|done].
      simpl. by rewrite Hkc, Hl.
Qed.

(** X2.  An output without any [']'], the empty output among them, makes
    the extractor raise [IndexError]; the machine is left as it was. *)
Theorem extract_result_without_bracket (output : pystr) (m : Machine) :
  Py.has_char 93 output = false ->
  Context._extract_result output m = (Raise IndexError, m).
Proof.
  intros H. apply extract_result_no_bracket_line.
  rewrite splitlines_newlines_to_lf. by apply splitlines_has_char.
Qed.

Lemma extract_result_on_prompt_only :
  Context._extract_result (u "Welcome to the engine" ++ [10] ++ u "> ")
    Demo.linux_box
  = (Raise IndexError, Demo.linux_box).
Proof. apply extract_result_without_bracket. reflexivity. Defined.

Lemma bracket_lines_normalized (output : pystr) :
  Context.bracket_lines (Context.normalize_newlines output)
  = Context.bracket_lines output.
Proof.
  unfold Context.bracket_lines.
  by rewrite normalize_newlines_spec, splitlines_newlines_to_lf.
Qed.

(** What the extractor does with the value the selected line decodes to. *)
Lemma extract_result_decoded (output line : pystr) (v : pyvalue)
    (m : Machine) :
  last (Context.bracket_lines output) = Some line ->
  json_loads (host m) line = inl v ->
  Context._extract_result output m
  = match Context.py_len v with
    | None => (Raise TypeError, m)
    | Some n =>
        bind (if Nat.eqb n 1
              then bind (Context.py_item0 v) (fun x => ret (PList [x; PNone]))
              else ret v)
          (fun r => bind (Context.unpack2 r)
             (fun sv => if Context.is_ok sv.1 then ret sv.2
                        else raise (ProgramError sv.2))) m
    end.
Proof.
  intros Hlast Hjson. unfold Context._extract_result.
  rewrite bracket_lines_normalized, Hlast.
  unfold bind at 1. unfold get_host. cbv beta iota. rewrite Hjson.
  by destruct (Context.py_len v).
Qed.

(** X3.  When the last line that holds a [']'] is not JSON, the extractor
    raises the decoding error and leaves the machine as it was; earlier
    lines are not tried. *)
Theorem extract_result_not_json (output line : pystr) (m : Machine) :
  last (Context.bracket_lines output) = Some line ->
  json_loads (host m) line = inr NotJson ->
  Context._extract_result output m = (Raise JSONDecodeError, m).
Proof.
  intros Hlast Hjson. apply (extract_result_undecodable output line _ NotJson);
    [|done].
  by rewrite <- bracket_lines_normalized, normalize_newlines_spec in Hlast.
Qed.

Lemma extract_result_on_trailing_noise :
  Context._extract_result (Demo.ok_line ++ [10] ++ u "a[0] is undefined")
    Demo.linux_box
  = (Raise JSONDecodeError, Demo.linux_box).
Proof.
  apply (extract_result_not_json _ (u "a[0] is undefined")); reflexivity.
Defined.

(** X4.  A selected line that decodes to an array with no element or
    with more than two elements makes the extractor raise [ValueError] (at
    the unpacking [status, value = ret]); the machine is left as it was. *)
Theorem extract_result_wrong_length (output line : pystr)
    (l : list pyvalue) (m : Machine) :
  last (Context.bracket_lines output) = Some line ->
  json_loads (host m) line = inl (PList l) ->
  length l <> 1%nat -> length l <> 2%nat ->
  Context._extract_result output m = (Raise ValueError, m).
Proof.
  intros Hlast Hjson H1 H2.
  rewrite (extract_result_decoded output line _ m Hlast Hjson). simpl.
  destruct l as [|a [|b [|c l]]]; simpl in *; done.
Qed.

Lemma extract_result_on_empty_array :
  Context._extract_result (u "[]") Cases.decoding_box
  = (Raise ValueError, Cases.decoding_box).
Proof.
  apply (extract_result_wrong_length _ (u "[]") []);
    [reflexivity | reflexivity | discriminate | discriminate].
Defined.

(** X5.  The extractor unpacks whatever sequence the line decodes to.  An
    object with two keys gives its keys, not its values, as status and
    value; an object with one key raises [KeyError]; a text of two
    characters gives the characters, so that it always raises
    [ProgramError] with the second one. *)
Theorem extract_result_other_sequences (output line : pystr) (m : Machine) :
  last (Context.bracket_lines output) = Some line ->
  (forall k1 v1 k2 v2,
     json_loads (host m) line = inl (PDict [(k1, v1); (k2, v2)]) ->
     Context._extract_result output m
     = (if bool_decide (k1 = u "ok") then Return (PStr k2)
        else Raise (ProgramError (PStr k2)), m)) /\
  (forall k1 v1,
     json_loads (host m) line = inl (PDict [(k1, v1)]) ->
     Context._extract_result output m = (Raise KeyError, m)) /\
  (forall a b,
     json_loads (host m) line = inl (PStr [a; b]) ->
     Context._extract_result output m
     = (Raise (ProgramError (PStr [b])), m)).
Proof.
  intros Hlast. split; [|split].
  - intros k1 v1 k2 v2 Hjson.
    rewrite (extract_result_decoded output line _ m Hlast Hjson). simpl.
    unfold_monad. simpl. by destruct (bool_decide (k1 = u "ok")).
  - intros k1 v1 Hjson.
    by rewrite (extract_result_decoded output line _ m Hlast Hjson).
  - intros a b Hjson.
    rewrite (extract_result_decoded output line _ m Hlast Hjson). simpl.
    unfold_monad. simpl. rewrite bool_decide_eq_false_2; [done|].
    intros H. apply (f_equal length) in H. discriminate.
Qed.

Lemma extract_result_on_object :
  Context._extract_result Cases.object_line Cases.decoding_box
  = (Return (PStr (u "x")), Cases.decoding_box).
Proof.
  refine (proj1 (extract_result_other_sequences Cases.object_line
                   Cases.object_line Cases.decoding_box eq_refl)
            (u "ok") (PList [PInt 1]) (u "x") (PInt 2) eq_refl).
Defined.

(** The exceptions of the statements after the decoding. *)
Lemma unpack_raises (v : pyvalue) :
  raises_only
    (fun e => e = IndexError \/ e = TypeError \/ e = ValueError \/
              e = KeyError \/ exists w, e = ProgramError w)
    (match Context.py_len v with
     | None => raise TypeError
     | Some n =>
         let* r := (if Nat.eqb n 1
                    then let* x := Context.py_item0 v in ret (PList [x; PNone])
                    else ret v) in
         let* sv := Context.unpack2 r in
         if Context.is_ok (fst sv) then ret (snd sv)
         else raise (ProgramError (snd sv))
     end).
Proof. unfold Context.unpack2, Context.py_item0. frame; eauto 10. Qed.

(** X6.  The extractor changes nothing on the machine, whatever the
    output.  An exception it raises is [IndexError], [TypeError],
    [ValueError], [KeyError] or [ProgramError], raised by its own
    statements, or else the one the decoder raised on the selected line:
    [JSONDecodeError] for a line that is not JSON, [RecursionError] for
    one nested too deep, [ValueError] for one with too long an integer. *)
Theorem extract_result_is_pure (output : pystr) (m : Machine) :
  (Context._extract_result output m).2 = m /\
  forall e, (Context._extract_result output m).1 = Raise e ->
    e = IndexError \/ e = TypeError \/ e = ValueError \/ e = KeyError \/
    (exists v, e = ProgramError v) \/
    exists line f,
      last (Context.bracket_lines output) = Some line /\
      json_loads (host m) line = inr f /\ e = json_exn f.
Proof.
  split.
  - destruct (extract_result_quiet output) as [H _]. symmetry. apply H.
  - intros e. unfold Context._extract_result.
    rewrite bracket_lines_normalized.
    destruct (last (Context.bracket_lines output)) as [line|];
      [|intros [= <-]; auto].
    unfold bind at 1. unfold get_host. cbv beta iota.
    destruct (json_loads (host m) line) as [v|f] eqn:Hjson.
    + intros He. destruct (unpack_raises v m e He) as [?|[?|[?|[?|?]]]]; auto 10.
    + intros [= <-]. do 5 right. eauto.
Qed.

(** ** The descriptor and the probe *)

Lemma which_probe (command : list pystr) (m : Machine) :
  command <> [] -> _which command m = (Return (probe m command), m).
Proof.
  destruct command as [|name args]; [done|]. intros _. apply which_find.
Qed.

(** The machine [__init__] leaves when the command is not empty. *)
Lemma init_run (nm : pystr) (command : pystr + list pystr)
    (runner_source encoding : pystr) (tempfile : bool) (prompt : pystr)
    (m0 : Machine) :
  let cmd := match command with inl c => [c] | inr l => l end in
  cmd <> [] ->
  __init__ nm command runner_source encoding tempfile prompt m0
  = (Return tt,
     {| host := host m0;
        self := {| _name := nm; _command := cmd;
                   _runner_source := runner_source; _encoding := encoding;
                   _tempfile := tempfile; _session := None;
                   _prompt := prompt;
                   _binary_cache := Some (probe m0 cmd);
                   _available := Some (bool_decide (probe m0 cmd <> None)) |};
        fs := fs m0; spawned := spawned m0; sessions := sessions m0 |}).
Proof.
  cbv zeta. intros Hne. unfold __init__, _binary. unfold_monad. simpl.
  rewrite which_probe by done. reflexivity.
Qed.

(** X7.  The constructor raises [IndexError] for an empty command list and
    returns for every other command, a single text standing for the list
    of that text; the runtime is then available exactly when the probe
    found the executable, and no file, process or session was touched. *)
Theorem init_probes_once (nm : pystr) (command : pystr + list pystr)
    (runner_source encoding : pystr) (tempfile : bool) (prompt : pystr)
    (m0 : Machine) :
  let cmd := match command with inl c => [c] | inr l => l end in
  let r := __init__ nm command runner_source encoding tempfile prompt m0 in
  (cmd = [] -> r.1 = Raise IndexError) /\
  (cmd <> [] ->
   r.1 = Return tt /\
   _command (self r.2) = cmd /\
   is_available r.2 = (Return (bool_decide (probe m0 cmd <> None)), r.2) /\
   _binary r.2 = (Return (probe m0 cmd), r.2)) /\
  fs r.2 = fs m0 /\ spawned r.2 = spawned m0 /\ sessions r.2 = sessions m0.
Proof.
  cbv zeta. destruct (decide (match command with inl c => [c] | inr l => l end
                              = [])) as [He|Hne].
  - split; [|split; [done|]].
    + intros _. unfold __init__, _binary. unfold_monad. simpl. by rewrite He.
    + unfold __init__, _binary. unfold_monad. simpl. by rewrite He.
  - rewrite init_run by done. split; [done|]. split; [|done].
    intros _. repeat split.
Qed.

Lemma init_on_empty_box :
  _available (self (Cases.unavailable_box false)) = Some false.
Proof.
  pose proof (init_probes_once (u "Node") (inr [u "node"]) Demo.runner
                (u "ascii") false (u "> ") Cases.empty_box) as H.
  cbv zeta in H. destruct H as (_ & H & _).
  destruct (H ltac:(discriminate)) as (_ & _ & Ha & _).
  unfold is_available in Ha. unfold_monad. simpl in Ha.
  fold (Cases.unavailable_box false) in Ha.
  destruct (_available (self (Cases.unavailable_box false))) as [a|];
    [|discriminate].
  injection Ha as ->. reflexivity.
Defined.

(** X8.  The answer of the probe is cached for the life of the runtime:
    after the constructor has returned, whatever calls are made on the
    runtime and its contexts and however the files change afterwards,
    [_binary] and [is_available] give what the probe found at construction
    and leave the machine as it is. *)
Theorem probe_answer_is_cached (nm : pystr) (command : pystr + list pystr)
    (runner_source encoding : pystr) (tempfile : bool) (prompt : pystr)
    (m0 : Machine) (calls : list method) (files : gmap pystr inode) :
  let cmd := match command with inl c => [c] | inr l => l end in
  let r := __init__ nm command runner_source encoding tempfile prompt m0 in
  cmd <> [] ->
  let m := with_files files (after calls r.2) in
  _binary m = (Return (probe m0 cmd), m) /\
  is_available m = (Return (bool_decide (probe m0 cmd <> None)), m).
Proof.
  cbv zeta. intros Hne.
  pose proof (after_keeps_configuration calls
    (__init__ nm command runner_source encoding tempfile prompt m0).2) as H.
  rewrite init_run in H |- * by done. simpl in H.
  specialize (H ltac:(eauto)). unfold configuration in H. simpl in H.
  injection H as _ _ _ _ _ _ Hcache Havail. split.
  - apply binary_cached. exact Hcache.
  - unfold is_available. unfold_monad. simpl. by rewrite Havail.
Qed.

Lemma probe_cached_on_node_box :
  _binary (with_files ∅ (after [Runtime_session] (Demo.node_box false)))
  = (Return (Some [u "/usr/bin/node"]),
     with_files ∅ (after [Runtime_session] (Demo.node_box false))).
Proof.
  refine (proj1 (probe_answer_is_cached (u "Node") (inr [u "node"])
                   Demo.runner (u "ascii") false (u "> ") Demo.linux_box
                   [Runtime_session] ∅ _)).
  discriminate.
Defined.

(** X9.  With [PATH] unset or empty, off Windows, the probe still tries
    one candidate: the bare command name joined to the empty directory, a
    path relative to the working directory. *)
Theorem unset_path_searches_bare_name (m : Machine) (name : pystr)
    (args : list pystr) :
  platform_system (host m) <> u "Windows" ->
  environ_get (host m) (u "PATH") = None \/
  environ_get (host m) (u "PATH") = Some [] ->
  let p := path_join (host m) [] name in
  candidates (path_join (host m)) (search_path m) name (search_ext m) = [p] /\
  _which (name :: args) m
  = (Return (if accepted (fs m) p
             then match p with [] => None | _ :: _ => Some (p :: args) end
             else None), m).
Proof.
  intros Hwin Hpath. cbv zeta.
  assert (Hc : candidates (path_join (host m)) (search_path m) name
                 (search_ext m) = [path_join (host m) [] name]).
  { unfold candidates, search_path, search_ext.
    rewrite bool_decide_eq_false_2 by done.
    destruct Hpath as [-> | ->]; simpl; by rewrite app_nil_r. }
  split; [exact Hc|]. rewrite which_find, Hc. simpl.
  destruct (accepted (fs m) (path_join (host m) [] name)); [|done].
  by destruct (path_join (host m) [] name).
Qed.

Lemma which_without_path :
  _which [u "node"] Cases.no_path_box
  = (Return (Some [u "node"]), Cases.no_path_box).
Proof.
  refine (proj2 (unset_path_searches_bare_name Cases.no_path_box (u "node")
                   [] _ _)).
  - discriminate.
  - left. reflexivity.
Defined.

Lemma split_cons (sep c : N) (s : pystr) :
  Str.split sep (c :: s)
  = if c =? sep then [] :: Str.split sep s
    else match Str.split sep s with
         | [] => [[c]]
         | l :: ls => (c :: l) :: ls
         end.
Proof. reflexivity. Qed.

Lemma split_not_nil (sep : N) (s : pystr) : Str.split sep s <> [].
Proof.
  destruct s as [|c s]; [done|]. rewrite split_cons.
  destruct (c =? sep); [done|]. by destruct (Str.split sep s).
Qed.

(** X10.  Splitting [PATH] at the separator loses nothing: joining the
    directories with the separator gives [PATH] back, no directory holds
    the separator, and there is one directory more than there are
    separators, so that an empty [PATH] gives one empty directory and
    doubled or trailing separators give empty directories. *)
Theorem path_split_is_lossless (sep : N) (s : pystr) :
  Json.join [sep] (Str.split sep s) = s /\
  Forall (fun d => Py.has_char sep d = false) (Str.split sep s) /\
  length (Str.split sep s)
  = S (length (filter (fun c => c = sep) s)).
Proof.
  induction s as [|c s (IHj & IHf & IHl)]; [by repeat constructor|].
  rewrite split_cons. pose proof (split_not_nil sep s) as Hne.
  destruct (N.eqb_spec c sep) as [->|Hc].
  - rewrite filter_cons_True by done. split; [|split].
    + destruct (Str.split sep s) as [|l ls] eqn:E; [done|].
      simpl in *. by rewrite IHj.
    + by constructor.
    + simpl. by rewrite IHl.
  - rewrite filter_cons_False by done.
    destruct (Str.split sep s) as [|l ls] eqn:E; [done|].
    apply Forall_cons in IHf as [Hl Hls]. split; [|split].
    + destruct ls; simpl in *; by rewrite <- IHj.
    + constructor; [|done]. simpl. rewrite Hl, orb_false_r.
      apply N.eqb_neq. congruence.
    + exact IHl.
Qed.

(** ** Running a program: more cases *)

Lemma exec_ignores_header_field (c : Context.t) (source : pystr) :
  Context._exec_with_pipe c source
  = Context._exec_with_pipe (without_header c) source /\
  Context._exec_with_tempfile c source
  = Context._exec_with_tempfile (without_header c) source /\
  Context._exec_with_session c source
  = Context._exec_with_session (without_header c) source.
Proof. by destruct c. Qed.

(** X11.  A header set on the context is put in front of every source,
    with one line feed between them, before anything else happens: to
    run a source on a context with a header is to run the header, a line
    feed and the source on the same context without the header; an empty
    header adds nothing, not even the line feed. *)
Theorem exec_prefixes_header (c : Context.t) (source : pystr) (m : Machine) :
  (Context._source c <> [] ->
   Context._exec_ c source m
   = Context._exec_ (without_header c) (Context._source c ++ [10] ++ source)
       m) /\
  (Context._source c = [] ->
   Context._exec_ c source m = Context._exec_ (without_header c) source m).
Proof.
  destruct (exec_ignores_header_field c source) as (Hp & Ht & Hs).
  destruct (exec_ignores_header_field c (Context._source c ++ [10] ++ source))
    as (Hp' & Ht' & Hs').
  unfold Context._exec_. split.
  - intros Hne. destruct (Context._source c) as [|x h] eqn:E; [done|].
    rewrite Hp', Ht', Hs'. by destruct c.
  - intros He. rewrite He, Hp, Ht, Hs. by destruct c.
Qed.

Lemma exec_with_header_on_node_box :
  Context._exec_
    {| Context._source := u "var a = 1"; Context._cwd := None;
       Context._tempfile := false; Context._session := None |}
    (u "return a") (Demo.node_box false)
  = Context._exec_ Demo.pipe_context
      (u "var a = 1" ++ [10] ++ u "return a") (Demo.node_box false).
Proof.
  refine (proj1 (exec_prefixes_header _ (u "return a") (Demo.node_box false))
            _).
  discriminate.
Defined.

#[local] Instance same_sessions_preorder : PreOrder same_sessions.
Proof.
  split; [done|]. intros a b c Hab Hbc. unfold same_sessions in *. congruence.
Qed.

#[local] Instance same_files_preorder : PreOrder same_files.
Proof.
  split; [done|]. intros a b c [? ?] [? ?]. unfold same_files.
  split; congruence.
Qed.

Lemma binary_keeps_sessions : keeps same_sessions _binary.
Proof. intros m. destruct binary_quiet as [H _]. apply (H m). Qed.

Lemma binary_keeps_files : keeps same_files _binary.
Proof.
  intros m. destruct binary_quiet as [H _].
  destruct (H m) as (_ & ? & ? & _). by split.
Qed.

#[local] Hint Resolve binary_keeps_sessions binary_keeps_files : frame.

(** X12.  The three ways to run a program keep to their own means: in
    tempfile and in pipe mode nothing is sent to, read from or changed in
    any session, even when the runtime has one; in session mode no file is
    created, written or removed and no process is started. *)
Theorem modes_keep_apart (c : Context.t) (source : pystr) (m : Machine) :
  (Context._tempfile c = true \/ Context._session c = None ->
   sessions (Context._exec_ c source m).2 = sessions m) /\
  (Context._tempfile c = false -> Context._session c <> None ->
   fs (Context._exec_ c source m).2 = fs m /\
   spawned (Context._exec_ c source m).2 = spawned m).
Proof.
  split.
  - intros Hmode. revert m. change (keeps same_sessions (Context._exec_ c source)).
    assert (Hext : forall o, keeps same_sessions (Context._extract_result o)).
    { intros o m. destruct (extract_result_quiet o) as [H _].
      hnf. by rewrite <- (H m). }
    unfold Context._exec_.
    refine (keeps_bind _ _ _ _ _); [|exact Hext].
    destruct (Context._tempfile c).
    + unfold Context._exec_with_tempfile, Context.tempfile_body, mkstemp,
        write_text, os_remove, Popen, communicate, Context._compile,
        Context._fail_on_non_zero_status.
      frame.
    + destruct Hmode as [|Hs]; [discriminate|]. rewrite Hs. simpl.
      unfold Context._exec_with_pipe, Popen, communicate, Context._compile,
        Context._fail_on_non_zero_status.
      frame.
  - intros Htmp Hsess. revert m.
    change (keeps same_files (Context._exec_ c source)).
    unfold Context._exec_. rewrite Htmp, bool_decide_eq_true_2 by done.
    refine (keeps_bind _ _ _ _ _).
    + unfold Context._exec_with_session, sendline, expect, get_before,
        update_session, _is_windows, Context._compile.
      frame.
    + intros o m. destruct (extract_result_quiet o) as [H _].
      hnf. by rewrite <- (H m).
Qed.

Lemma tempfile_mode_leaves_session_alone :
  sessions (Context._exec_
              {| Context._source := []; Context._cwd := None;
                 Context._tempfile := true; Context._session := Some 0%nat |}
              (u "return 1") (session (Demo.node_box true)).2).2
  = sessions (session (Demo.node_box true)).2.
Proof.
  refine (proj1 (modes_keep_apart _ (u "return 1")
                   (session (Demo.node_box true)).2) _).
  left. reflexivity.
Defined.

Lemma with_files_same (m : Machine) : with_files (fs m) m = m.
Proof. by destruct m. Qed.

(** The cleanup when the file is still there: it is deleted and the
    outcome of the [try] block stands. *)
Lemma cleanup_present {A} (body : M A) (f : pystr) (m mb : Machine)
    (rb : outcome A) (st : inode) :
  body m = (rb, mb) -> fs mb !! f = Some st ->
  try_finally body (os_remove f) m = (rb, with_files (delete f (fs mb)) mb).
Proof.
  intros Hb Hf. unfold try_finally, os_remove. unfold_monad.
  rewrite Hb. simpl. by rewrite Hf.
Qed.

Lemma tempfile_body_unencodable (c : Context.t) (source f : pystr)
    (m : Machine) (st : inode) :
  fs m !! f = Some st ->
  codec_encode (host m) (_encoding (self m))
    (Context.compile_text (json2_source (host m)) source
       (_runner_source (self m))) = None ->
  Context.tempfile_body c source f m
  = (Raise UnicodeError,
     with_files (<[f := {| st_mode := st_mode st; st_data := [] |}]> (fs m))
       m).
Proof.
  intros Hf Henc. unfold Context.tempfile_body, write_text, Context._compile.
  unfold_monad. simpl. by rewrite Hf, Henc.
Qed.

Lemma tempfile_body_unavailable (c : Context.t) (source f bytes : pystr)
    (m : Machine) (st : inode) :
  fs m !! f = Some st ->
  codec_encode (host m) (_encoding (self m))
    (Context.compile_text (json2_source (host m)) source
       (_runner_source (self m))) = Some bytes ->
  _binary_cache (self m) = Some None ->
  Context.tempfile_body c source f m
  = (Raise TypeError,
     with_files
       (<[f := {| st_mode := st_mode st; st_data := bytes |}]> (fs m)) m).
Proof.
  intros Hf Henc Hcache.
  unfold Context.tempfile_body, write_text, Context._compile.
  unfold_monad. simpl. rewrite Hf, Henc. simpl.
  rewrite (binary_cached _ None) by done. reflexivity.
Qed.

Lemma new_file_removed (f : pystr) (m : Machine) (st : inode) :
  fs m !! f = None ->
  with_files
    (delete f (fs (with_files (<[f := st]> (fs (with_new_file f m)))
                     (with_new_file f m))))
    (with_files (<[f := st]> (fs (with_new_file f m))) (with_new_file f m))
  = m.
Proof.
  intros Hf. unfold with_files, with_new_file. simpl.
  rewrite !delete_insert_eq, delete_id by done. by destruct m.
Qed.

(** X13.  On a runtime whose executable was not found, running a program
    raises [TypeError] instead of starting anything: in pipe mode at
    [Popen(None)], in tempfile mode at [None + [filename]], after the
    program was written; the temporary file is removed again and the
    machine is as it was. *)
Theorem unavailable_engine_raises_type_error (c : Context.t)
    (source : pystr) (m : Machine) :
  _binary_cache (self m) = Some None ->
  Context._exec_with_pipe c source m = (Raise TypeError, m) /\
  (forall f bytes,
     mkstemp_loop TMP_MAX 0 (host m) (fs m) (u "execjs") (u ".js") = Some f ->
     codec_encode (host m) (_encoding (self m))
       (Context.compile_text (json2_source (host m)) source
          (_runner_source (self m))) = Some bytes ->
     Context._exec_with_tempfile c source m = (Raise TypeError, m)).
Proof.
  intros Hcache. split.
  - unfold Context._exec_with_pipe. unfold bind at 1.
    by rewrite (binary_cached _ None).
  - intros f bytes Hloop Henc. rewrite exec_with_tempfile_run, Hloop.
    pose proof (mkstemp_loop_fresh _ _ _ _ _ _ _ Hloop) as [Hfresh _].
    erewrite cleanup_present.
    + f_equal. by apply new_file_removed.
    + apply (tempfile_body_unavailable c source f bytes (with_new_file f m)
               {| st_mode := 33152; st_data := [] |}); try done.
      apply lookup_insert_eq.
    + apply lookup_insert_eq.
Qed.

Lemma exec_on_unavailable_box :
  Context._exec_with_pipe Demo.pipe_context (u "return 1")
    (Cases.unavailable_box false)
  = (Raise TypeError, Cases.unavailable_box false).
Proof.
  refine (proj1 (unavailable_engine_raises_type_error Demo.pipe_context
                   (u "return 1") (Cases.unavailable_box false) _)).
  vm_compute. reflexivity.
Defined.

(** X14.  In tempfile mode a program that the encoding of the runtime
    cannot express raises the encoding error when the file is written: no
    engine is started, the temporary file is removed and the machine is as
    it was. *)
Theorem unencodable_program_is_not_run (c : Context.t) (source f : pystr)
    (m : Machine) :
  mkstemp_loop TMP_MAX 0 (host m) (fs m) (u "execjs") (u ".js") = Some f ->
  codec_encode (host m) (_encoding (self m))
    (Context.compile_text (json2_source (host m)) source
       (_runner_source (self m))) = None ->
  Context._exec_with_tempfile c source m = (Raise UnicodeError, m).
Proof.
  intros Hloop Henc. rewrite exec_with_tempfile_run, Hloop.
  pose proof (mkstemp_loop_fresh _ _ _ _ _ _ _ Hloop) as [Hfresh _].
  erewrite cleanup_present.
  - f_equal. by apply new_file_removed.
  - apply (tempfile_body_unencodable c source f (with_new_file f m)
             {| st_mode := 33152; st_data := [] |}); try done.
    apply lookup_insert_eq.
  - apply lookup_insert_eq.
Qed.

Lemma non_ascii_program_on_node_box :
  Context._exec_with_tempfile Demo.tempfile_context [114; 233]
    (Demo.node_box true)
  = (Raise UnicodeError, Demo.node_box true).
Proof.
  apply (unencodable_program_is_not_run _ _ (u "/tmp/execjs0.js"));
    vm_compute; reflexivity.
Defined.

Section OtherFiles.
Context (h : Host) (f : pystr) (Hkept : files_kept h).

#[local] Instance same_files_but_preorder : PreOrder (same_files_but h f).
Proof.
  split; [by intros m Hm|]. intros a b c Hab Hbc Ha.
  destruct (Hab Ha) as [Hb Hfab]. destruct (Hbc Hb) as [Hc Hfbc].
  split; congruence.
Qed.

Lemma write_text_keeps_other_files enc text :
  keeps (same_files_but h f) (write_text f enc text).
Proof.
  intros m Hm. unfold write_text. unfold_monad. simpl.
  destruct (codec_encode (host m) enc text); simpl;
    by rewrite delete_insert_eq.
Qed.

Lemma communicate_keeps_other_files args input cwd :
  keeps (same_files_but h f) (communicate args input cwd).
Proof.
  intros m Hm.
  destruct (communicate_cases args input cwd m)
    as [H|(data & files' & res & Hrun & H)]; cbv zeta in H; rewrite H; simpl.
  - done.
  - pose proof (Hkept {| argv := args; stdin := data; popen_cwd := cwd |}
                  (fs m)) as Hsame.
    rewrite <- Hm, Hrun in Hsame. simpl in Hsame. by subst files'.
Qed.

Lemma binary_keeps_other_files : keeps (same_files_but h f) _binary.
Proof.
  intros m Hm. destruct binary_quiet as [H _].
  destruct (H m) as (Hh & Hf & _). split; congruence.
Qed.

Lemma tempfile_body_keeps_other_files c source :
  keeps (same_files_but h f) (Context.tempfile_body c source f).
Proof.
  pose proof write_text_keeps_other_files.
  pose proof communicate_keeps_other_files.
  pose proof binary_keeps_other_files.
  unfold Context.tempfile_body, Popen, Context._compile,
    Context._fail_on_non_zero_status.
  frame; eauto.
Qed.

End OtherFiles.

(** X15.  Tempfile mode cleans up after itself: when the engine changes no
    file, the files after the call are exactly the files before it,
    whatever the outcome of the call. *)
Theorem tempfile_mode_restores_files (c : Context.t) (source : pystr)
    (m : Machine) :
  files_kept (host m) ->
  fs (Context._exec_with_tempfile c source m).2 = fs m.
Proof.
  intros Hkept. rewrite exec_with_tempfile_run.
  destruct (mkstemp_loop TMP_MAX 0 (host m) (fs m) _ _) as [f|] eqn:Hloop;
    [|done].
  pose proof (mkstemp_loop_fresh _ _ _ _ _ _ _ Hloop) as [Hfresh _].
  pose proof (tempfile_body_keeps_other_files (host m) f Hkept c source
                (with_new_file f m) eq_refl) as [_ Hfiles].
  assert (Hnew : delete f (fs (with_new_file f m)) = fs m).
  { unfold with_new_file. simpl. by rewrite delete_insert_eq, delete_id. }
  rewrite Hnew in Hfiles.
  unfold try_finally, os_remove. unfold_monad.
  destruct (Context.tempfile_body c source f (with_new_file f m))
    as [rb mb]. simpl in *.
  destruct (fs mb !! f) eqn:E; simpl; [done|].
  by rewrite <- Hfiles, delete_id.
Qed.

Lemma demo_files_kept : files_kept Demo.posix.
Proof. intros c files. reflexivity. Defined.

Lemma tempfile_on_node_box_restores_files :
  fs (Context._exec_with_tempfile Demo.tempfile_context (u "return 1+1")
        (Demo.node_box true)).2
  = fs (Demo.node_box true).
Proof.
  exact (tempfile_mode_restores_files Demo.tempfile_context (u "return 1+1")
           (Demo.node_box true) demo_files_kept).
Defined.



(** The engine of [Cases.garbling] ends with status 0 and prints the
    result, and the call raises all the same. *)
Example garbled_error_output :
  (exit_status ∘ result)
    <$> spawned (Context._exec_ Demo.pipe_context (u "return 1+1")
                   Cases.garbling_box).2 = [0%Z] /\
  (Context._exec_ Demo.pipe_context (u "return 1+1") Cases.garbling_box).1
  = Raise UnicodeError.
Proof. split; vm_compute; reflexivity. Qed.

(** ** The programs that are built *)

(** X17.  The program [_eval] builds holds printable ASCII characters
    only, whatever the source: it can be written in any encoding that
    extends ASCII. *)
Theorem eval_code_is_printable (source : pystr) :
  Forall (fun x => printable_ascii x = true) (Context.eval_code source).
Proof.
  unfold Context.eval_code.
  apply Forall_app. split; [by repeat constructor|].
  apply Forall_app. split; [|by repeat constructor].
  destruct (Str.strip source); [by repeat constructor|].
  apply Forall_app. split; [by repeat constructor|].
  apply Forall_app. split; [|by repeat constructor].
  apply dumps_str_printable.
Qed.

Lemma contains_cons (p : pystr) (c : N) (s : pystr) :
  Py.contains p (c :: s) = Py.startswith p (c :: s) || Py.contains p s.
Proof. reflexivity. Qed.

(** What a substitution puts out comes from the text or from the
    replacements of the alternatives that occur in it. *)
Lemma sub_scan_Forall (P : N -> Prop) alts (k : nat) (s : pystr) :
  Forall P s ->
  (forall q r, (q, r) ∈ alts -> q <> [] -> Py.contains q s = true ->
     Forall P r) ->
  Forall P (Py.sub_scan alts k s).
Proof.
  intros Hs. revert k. induction Hs as [|c s Hc Hs IH]; intros k Halts;
    [constructor|].
  assert (Hrest : forall q r, (q, r) ∈ alts -> q <> [] ->
            Py.contains q s = true -> Forall P r).
  { intros q r Hin Hne Hq. apply (Halts q r Hin Hne).
    rewrite contains_cons, Hq. apply orb_true_r. }
  destruct k as [|k]; [|by apply IH].
  rewrite sub_scan_cons.
  destruct (Py.first_match alts (c :: s)) as [[q r]|] eqn:E.
  - apply first_match_Some in E as (Hin & Hne & Hq).
    apply Forall_app. split; [|by apply IH].
    apply (Halts q r Hin Hne). by rewrite contains_cons, Hq.
  - constructor; [done | by apply IH].
Qed.

(** X18.  When the runner template and the shim are printable ASCII and
    the template does not use [#{source}], the compiled program is
    printable ASCII for every snippet: the snippet enters the program only
    through [#{encoded_source}], whose text [json.dumps] has escaped. *)
Theorem compiled_program_is_printable (json2 source template : pystr) :
  Forall (fun x => printable_ascii x = true) template ->
  Forall (fun x => printable_ascii x = true) json2 ->
  Py.contains (u "#{source}") template = false ->
  Forall (fun x => printable_ascii x = true)
    (Context.compile_text json2 source template).
Proof.
  intros Ht Hj Hsrc. unfold Context.compile_text, Py.re_sub.
  apply sub_scan_Forall; [done|]. intros q r Hin _ Hq.
  unfold Context.replacements in Hin.
  rewrite !elem_of_cons, elem_of_nil in Hin.
  destruct Hin as [[= -> ->]|[[= -> ->]|[[= -> ->]|[]]]].
  - congruence.
  - apply dumps_str_printable.
  - exact Hj.
Qed.

Lemma compiled_non_ascii_snippet :
  Forall (fun x => printable_ascii x = true)
    (Context.compile_text (u "var JSON;") [233]
       (u "print(eval(#{encoded_source}))")).
Proof.
  apply compiled_program_is_printable.
  - apply Forall_forall. intros x Hx.
    apply (proj1 (forallb_forall _ _)
             (eq_refl : forallb printable_ascii
                          (u "print(eval(#{encoded_source}))") = true)).
    by apply list_elem_of_In.
  - by repeat constructor.
  - reflexivity.
Defined.

(** X19.  [_call] never takes the blank-source branch of [_eval]: for
    every identifier, the empty one included, and all arguments it
    evaluates [identifier.apply(this, ARGS)], where [ARGS] is [json.dumps]
    of the list of arguments, through the program
    [return eval('('+L+')')] in which [L] is a literal for that
    expression. *)
Theorem call_builds_apply_expression (c : Context.t) (identifier : pystr)
    (args : list pyvalue) (m : Machine) :
  let expr := identifier ++ u ".apply(this, "
              ++ JsonValue.dumps (float_repr (host m)) (PList args) ++ u ")" in
  Context._call c identifier args m = Context._eval c expr m /\
  Context.eval_code expr
  = u "return eval(" ++ u "'('+" ++ Json.dumps_str expr ++ u "+')'" ++ u ")" /\
  Js.string_literal_value (Json.dumps_str expr) = Some (Js.utf16 expr).
Proof.
  cbv zeta. split; [reflexivity|]. split; [|apply dumps_str_value].
  unfold Context.eval_code.
  match goal with
  | |- context [Str.strip ?e] => destruct (Str.strip e) eqn:E
  end.
  - apply strip_nil in E. rewrite forallb_app in E.
    apply andb_true_iff in E as [_ E]. discriminate.
  - by rewrite <- !app_assoc.
Qed.

(** ** Starting a session *)

Lemma partition_None (pat s : pystr) :
  Py.contains pat s = false -> Str.partition pat s = None.
Proof.
  induction s as [|c s IH]; intros H.
  - rewrite partition_unfold. unfold Py.contains in H.
    apply orb_false_iff in H as [-> _]. done.
  - rewrite contains_cons in H. apply orb_false_iff in H as [Hs Hc].
    rewrite partition_unfold, Hs, IH by done. done.
Qed.

Lemma insert_last {A} (l : list A) (x y : A) :
  <[length l := y]> (l ++ [x]) = l ++ [y].
Proof.
  replace (length l) with (length l + 0)%nat by lia.
  by rewrite insert_app_r.
Qed.

Lemma lookup_last {A} (l : list A) (x : A) :
  (l ++ [x]) !! length l = Some x.
Proof. by apply list_lookup_middle. Qed.

(** What [session()] does on a constructed runtime whose prompt is plain,
    case by case. *)
Lemma session_run (m : Machine) (cmd : option (list pystr)) :
  _binary_cache (self m) = Some cmd ->
  plain_pattern (_prompt (self m)) = true ->
  session m
  = match cmd with
    | None =>
        (match Str.partition (_prompt (self m)) [] with
         | Some _ => Return (length (sessions m))
         | None => Raise ValueError
         end, with_spawned Childless m)
    | Some args =>
        match pty_spawn (host m) args with
        | None => (Raise ExceptionPexpect, m)
        | Some banner =>
            match Str.partition (_prompt (self m)) banner with
            | None =>
                (Raise ExceptionPexpect,
                 with_spawned
                   (Live {| sent := []; buffer := []; before := banner;
                            delaybeforesend := Some 50 |}) m)
            | Some (b, a) =>
                (Return (length (sessions m)),
                 with_spawned
                   (Live {| sent := []; buffer := a; before := b;
                            delaybeforesend := None |}) m)
            end
        end
    end.
Proof.
  intros Hcache Hplain. unfold session. unfold bind at 1.
  rewrite (binary_cached _ _ Hcache). unfold pyexpect_spawn.
  unfold bind at 1. unfold bind at 1. unfold get_host at 1. cbv beta iota.
  unfold bind at 1. unfold get_sessions at 1. cbv beta iota.
  destruct cmd as [args|].
  - destruct (pty_spawn (host m) args) as [banner|]; [|done].
    unfold expect, update_session. unfold_monad. simpl.
    rewrite lookup_last, Hplain. simpl.
    destruct (Str.partition (_prompt (self m)) banner) as [[b a]|]; simpl.
    + rewrite insert_last, lookup_last. simpl. by rewrite insert_last.
    + by rewrite insert_last.
  - unfold expect, update_session. unfold_monad. simpl.
    rewrite lookup_last, Hplain. simpl.
    destruct (Str.partition (_prompt (self m)) []) as [[b a]|]; simpl;
      [|done].
    by rewrite lookup_last.
Qed.

Lemma partition_nil (pat : pystr) :
  pat <> [] -> Str.partition pat [] = None.
Proof. intros H. rewrite partition_unfold. by destruct pat. Qed.

(** X20.  The ways [session()] fails, for a prompt that is plain text.
    On a runtime whose executable was not found, [pyexpect.spawn(None)]
    gives an object without a child and the wait for a prompt that is not
    empty raises [ValueError]; when the engine starts but never shows the
    prompt, the wait raises too.  In both cases the runtime already holds
    the new object as its session, so that the contexts compiled
    afterwards are session contexts.  When the engine cannot be started on
    its terminal, [session()] raises and leaves the machine as it was. *)
Theorem failed_session_start (m : Machine) :
  plain_pattern (_prompt (self m)) = true ->
  let s := length (sessions m) in
  let compiles_with_session :=
    forall source cwd,
      (_compile source cwd (session m).2).1
      = Return {| Context._source := source; Context._cwd := cwd;
                  Context._tempfile := _tempfile (self m);
                  Context._session := Some s |} in
  (_binary_cache (self m) = Some None -> _prompt (self m) <> [] ->
   (session m).1 = Raise ValueError /\
   sessions (session m).2 = sessions m ++ [Childless] /\
   _session (self (session m).2) = Some s /\ compiles_with_session) /\
  (forall args banner,
     _binary_cache (self m) = Some (Some args) ->
     pty_spawn (host m) args = Some banner ->
     Py.contains (_prompt (self m)) banner = false ->
     (session m).1 = Raise ExceptionPexpect /\
     _session (self (session m).2) = Some s /\ compiles_with_session) /\
  (forall args,
     _binary_cache (self m) = Some (Some args) ->
     pty_spawn (host m) args = None ->
     session m = (Raise ExceptionPexpect, m)).
Proof.
  intros Hplain. cbv zeta. split; [|split].
  - intros Hcache Hne. rewrite (session_run m None Hcache Hplain).
    by rewrite (partition_nil _ Hne).
  - intros args banner Hcache Hspawn Hprompt.
    rewrite (session_run m (Some args) Hcache Hplain), Hspawn.
    by rewrite (partition_None _ _ Hprompt).
  - intros args Hcache Hspawn.
    by rewrite (session_run m (Some args) Hcache Hplain), Hspawn.
Qed.

Lemma session_without_prompt :
  (session Cases.silent_box).1 = Raise ExceptionPexpect /\
  _session (self (session Cases.silent_box).2) = Some 0%nat.
Proof.
  destruct (failed_session_start Cases.silent_box eq_refl) as (_ & H & _).
  destruct (H [u "/usr/bin/node"] (u "Welcome")
              ltac:(vm_compute; reflexivity) ltac:(reflexivity)
              ltac:(vm_compute; reflexivity)) as (H1 & H2 & _).
  exact (conj H1 H2).
Defined.

(** On the runtime whose executable was not found, [session()] raises
    [ValueError] and the runtime has a session all the same. *)
Example session_on_unavailable_box :
  (session (Cases.unavailable_box false)).1 = Raise ValueError /\
  _session (self (session (Cases.unavailable_box false)).2) = Some 0%nat /\
  sessions (session (Cases.unavailable_box false)).2 = [Childless].
Proof. repeat split; vm_compute; reflexivity. Qed.

(** X21.  When the engine starts and shows the prompt, a prompt that is
    plain text, [session()] returns a new session, never an earlier one:
    it is added after the sessions there are, holds as pending output what
    followed the first prompt, has its send delay switched off, and is
    the session of the runtime and of the contexts compiled from then on;
    the sessions that existed stay as they are. *)
Theorem session_start (m : Machine) (args : list pystr)
    (banner b a : pystr) :
  plain_pattern (_prompt (self m)) = true ->
  _binary_cache (self m) = Some (Some args) ->
  pty_spawn (host m) args = Some banner ->
  banner = b ++ _prompt (self m) ++ a ->
  (forall b' a', banner = b' ++ _prompt (self m) ++ a' ->
     (length b <= length b')%nat) ->
  let s := length (sessions m) in
  (session m).1 = Return s /\
  sessions (session m).2
  = sessions m ++ [Live {| sent := []; buffer := a; before := b;
                           delaybeforesend := None |}] /\
  _session (self (session m).2) = Some s /\
  configuration (self (session m).2) = configuration (self m) /\
  forall source cwd,
    (_compile source cwd (session m).2).1
    = Return {| Context._source := source; Context._cwd := cwd;
                Context._tempfile := _tempfile (self m);
                Context._session := Some s |}.
Proof.
  intros Hplain Hcache Hspawn Hbanner Hfirst. cbv zeta.
  rewrite (session_run m (Some args) Hcache Hplain), Hspawn.
  by rewrite (partition_first _ _ _ _ Hbanner Hfirst).
Qed.

Lemma session_start_on_node_box :
  (session (Demo.node_box false)).1 = Return 0%nat.
Proof.
  refine (proj1 (session_start (Demo.node_box false)
                   [u "/usr/bin/node"]
                   (u "Welcome" ++ [10] ++ u "> ") (u "Welcome" ++ [10]) []
                   _ _ _ _ _)).
  - reflexivity.
  - vm_compute. reflexivity.
  - vm_compute. reflexivity.
  - vm_compute. reflexivity.
  - intros b' a' H.
    destruct (decide (length b' < 8)%nat) as [Hlt|]; [exfalso|simpl; lia].
    assert (Hp : _prompt (self (Demo.node_box false)) = u "> ")
      by (vm_compute; reflexivity).
    rewrite Hp in H.
    apply (f_equal (fun s => take 2 (drop (length b') s))) in H.
    rewrite drop_app_length in H.
    do 8 (destruct b' as [|? b']; [vm_compute in H; discriminate|]).
    simpl in Hlt. lia.
Defined.

(** ** The known engines *)

#[local] Arguments probe : simpl never.

Lemma node_run (Node : pystr) (m : Machine) :
  node Node m
  = if bool_decide (probe m [u "node"] <> None) then node_node Node m
    else node_nodejs Node m.
Proof.
  unfold node, node_node, node_nodejs. unfold bind at 1.
  rewrite init_run by done. unfold bind at 1.
  unfold is_available at 1. unfold_monad. cbv beta iota. simpl _available.
  cbv beta iota.
  destruct (bool_decide (probe m [u "node"] <> None));
    cbn [_available self]; cbv beta iota; [done|].
  by rewrite !init_run.
Qed.

(** X22.  [node()] gives the runtime for the command [node] when the
    probe finds [node], and otherwise the runtime for [nodejs], whether
    [nodejs] is found or not: the result is available exactly when one of
    the two commands is found, and the call never raises. *)
Theorem node_falls_back_to_nodejs (Node : pystr) (m : Machine) :
  let r := node Node m in
  let has_node := bool_decide (probe m [u "node"] <> None) in
  let has_nodejs := bool_decide (probe m [u "nodejs"] <> None) in
  r.1 = Return tt /\
  _command (self r.2) = (if has_node then [u "node"] else [u "nodejs"]) /\
  is_available r.2 = (Return (has_node || has_nodejs), r.2) /\
  _binary r.2
  = (Return (if has_node then probe m [u "node"] else probe m [u "nodejs"]),
     r.2) /\
  _tempfile (self r.2) = false /\ _runner_source (self r.2) = Node.
Proof.
  cbv zeta. rewrite node_run. unfold node_node, node_nodejs.
  destruct (bool_decide (probe m [u "node"] <> None)) eqn:Hnode;
    rewrite init_run by done; simpl; rewrite ?Hnode; repeat split.
Qed.

(** On a machine where only [/bin/nodejs] exists, [node()] gives the
    runtime for [nodejs]. *)
Example node_on_nodejs_box :
  _command (self (node Demo.runner Cases.nodejs_box).2) = [u "nodejs"] /\
  _available (self (node Demo.runner Cases.nodejs_box).2) = Some true.
Proof. split; vm_compute; reflexivity. Qed.

(** ** Sessions and contexts *)



(** X24.  The tempfile flag wins over the session: a context with the flag
    set runs exactly as the same context without a session, so that
    [session()] on a tempfile runtime changes nothing in how programs are
    run. *)
Theorem tempfile_flag_overrides_session (c : Context.t) (source : pystr)
    (m : Machine) :
  Context._tempfile c = true ->
  Context._exec_ c source m = Context._exec_ (without_session c) source m.
Proof.
  intros Htmp. unfold Context._exec_. destruct c as [h cwd tmp sess].
  simpl in *. subst tmp. reflexivity.
Qed.

Lemma tempfile_context_with_session :
  Context._exec_
    {| Context._source := []; Context._cwd := None;
       Context._tempfile := true; Context._session := Some 0%nat |}
    (u "return 1+1") (Demo.node_box true)
  = Context._exec_ Demo.tempfile_context (u "return 1+1") (Demo.node_box true).
Proof.
  exact (tempfile_flag_overrides_session
           {| Context._source := []; Context._cwd := None;
              Context._tempfile := true; Context._session := Some 0%nat |}
           (u "return 1+1") (Demo.node_box true) eq_refl).
Defined.

Lemma exec_keeps_sessions (c : Context.t) (source : pystr) :
  Context._tempfile c = true \/ Context._session c = None ->
  keeps same_sessions (Context._exec_ c source).
Proof.
  intros Hmode. unfold Context._exec_.
  refine (keeps_bind _ _ _ _ _).
  2:{ intros o m. destruct (extract_result_quiet o) as [H _].
      hnf. by rewrite <- (H m). }
  destruct (Context._tempfile c).
  - unfold Context._exec_with_tempfile, Context.tempfile_body, mkstemp,
      write_text, os_remove, Popen, communicate, Context._compile,
      Context._fail_on_non_zero_status.
    frame.
  - destruct Hmode as [|Hs]; [discriminate|]. rewrite Hs. simpl.
    unfold Context._exec_with_pipe, Popen, communicate, Context._compile,
      Context._fail_on_non_zero_status.
    frame.
Qed.

(** X25.  A context takes the tempfile flag and the session of the runtime
    when it is compiled and keeps them: compiling changes nothing on the
    machine, and a context compiled while the runtime has no session never
    uses one, whatever happens to the runtime afterwards, a later
    [session()] included. *)
Theorem context_mode_is_fixed_at_compile (source : pystr)
    (cwd : option pystr) (m : Machine) :
  exists ctx,
    _compile source cwd m = (Return ctx, m) /\
    Context._source ctx = source /\ Context._cwd ctx = cwd /\
    Context._tempfile ctx = _tempfile (self m) /\
    Context._session ctx = _session (self m) /\
    (_session (self m) = None ->
     forall src m', sessions (Context._exec_ ctx src m').2 = sessions m').
Proof.
  eexists. split; [reflexivity|]. simpl. repeat split.
  intros Hnone src m'. apply (exec_keeps_sessions _ src); simpl. by right.
Qed.

(** ** The probe: arguments and extensions *)

(** X26.  The arguments of a command play no part in the search and are
    handed on as they are: [_which] finds for [name] and arguments what it
    finds for [name] alone, and answers the path followed by the arguments
    in their order; a path it answers is not empty and names a regular
    file with an execute bit. *)
Theorem which_passes_arguments_through (m : Machine) (name : pystr)
    (args : list pystr) :
  exists found : option pystr,
    _which [name] m = (Return ((fun p => [p]) <$> found), m) /\
    _which (name :: args) m = (Return ((fun p => p :: args) <$> found), m) /\
    forall p, found = Some p -> p <> [] /\ accepted (fs m) p = true.
Proof.
  rewrite !which_find.
  destruct (List.find (accepted (fs m)) _) as [[|c p]|] eqn:E.
  - exists None. by repeat split.
  - exists (Some (c :: p)). split; [done|]. split; [done|].
    intros q [= <-]. split; [done|]. by apply find_some in E as [_ ?].
  - exists None. by repeat split.
Qed.

Lemma candidates_bare (join : pystr -> pystr -> pystr)
    (pathlist : list pystr) (prog : pystr) :
  candidates join pathlist prog [[]] = (fun dir => join dir prog) <$> pathlist.
Proof.
  unfold candidates. induction pathlist as [|dir rest IH]; [done|].
  rewrite bind_cons, IH. simpl. by rewrite app_nil_r.
Qed.

(** X27.  On Windows with [PATHEXT] unset or empty the probe tries the
    bare command name only, once in every directory of [PATH] and in the
    order of [PATH]: no extension is added, so a file that carries one is
    not looked at. *)
Theorem windows_without_pathext (m : Machine) (name : pystr)
    (args : list pystr) :
  platform_system (host m) = u "Windows" ->
  environ_get (host m) (u "PATHEXT") = None \/
  environ_get (host m) (u "PATHEXT") = Some [] ->
  candidates (path_join (host m)) (search_path m) name (search_ext m)
  = (fun dir => path_join (host m) dir name) <$> search_path m /\
  _which (name :: args) m
  = (Return
       match List.find (accepted (fs m))
               ((fun dir => path_join (host m) dir name) <$> search_path m)
       with
       | Some (c :: p) => Some ((c :: p) :: args)
       | _ => None
       end, m).
Proof.
  intros Hwin Hext.
  assert (Hc : candidates (path_join (host m)) (search_path m) name
                 (search_ext m)
               = (fun dir => path_join (host m) dir name) <$> search_path m).
  { unfold search_ext. rewrite bool_decide_eq_true_2 by done.
    destruct Hext as [-> | ->]; apply candidates_bare. }
  split; [exact Hc|]. by rewrite which_find, Hc.
Qed.

Lemma which_on_bare_windows_box :
  _which [u "node"] Cases.bare_windows_box
  = (Return None, Cases.bare_windows_box).
Proof.
  refine (proj2 (windows_without_pathext Cases.bare_windows_box (u "node")
                   [] _ _)).
  - reflexivity.
  - left. reflexivity.
Defined.
